(** * Universal Budget Dashboard: the aggregation and guardrail pipeline

    A shallow embedding of [app.py]: the normalizer [ensure_columns], the
    monthly aggregation [aggregate_monthly], [current_month_key], the
    per-category summaries of the "Budget & Entries" and "Analytics" tabs,
    the 3-month rolling average, the pace tracker, the guardrails and the
    category-catalog upload; then the rest of the script that computes:
    the risk guards, the 50/30/20 view, the recommendations of the report,
    the paydays and hard caps of the Settings tab, the merge of the
    budgets with the catalog, the quick entry and the data import;
    followed by the properties proved of them.

    Modelling conventions.
    - Amounts are pandas/Python binary64 floats in the program.  They are
      modelled as exact rationals [Qc] (canonical fractions, so that equal
      amounts are equal terms); rounding is outside the model.
    - Strings are Rocq [string]s (byte strings); the Python string methods
      are modelled on ASCII, bytes above 127 are treated as uncased,
      non-blank, non-digit characters.
    - A Python exception is a value [Raise e] of the error monad [result].
    - A pandas DataFrame is a list of rows together with [df.dtypes]; cells
      are the scalars that [read_csv] produces (None, NaN, str, int, float)
      plus Timestamp/NaT in the Date column.  The scalar conversions of
      pandas (text of a float, number of a str, date of a scalar) are the
      operations of the class [Pandas]; the properties hold for every
      instance.
    - The dictionaries that are only looked up ([cat_map], [bmap],
      [df.dtypes]) are [gmap]s; [hard_caps] is iterated in insertion order
      and is an association list.
    - Streamlit widgets draw on the page; of their output only the
      messages of the catalog upload and the alerts of the guardrails are
      kept, the alerts as the values their text interpolates.
    - [datetime.now()] is an argument of the functions that read it. *)

From Stdlib Require Import ZArith QArith Qcanon Lia Lqa List Ascii String.
From Stdlib Require Import Sorting.Sorted Sorting.Permutation.
From stdpp Require Import gmap strings pretty.
Import ListNotations.

Local Open Scope string_scope.
Local Open Scope list_scope.
Local Open Scope Z_scope.

(** ** Exceptions *)

Inductive exn : Type :=
| ValueError
| AttributeError
| KeyError.

Inductive result (A : Type) : Type :=
| Ok (a : A)
| Raise (e : exn).
Arguments Ok {A} a.
Arguments Raise {A} e.

#[global] Instance result_ret : MRet result := fun A a => Ok a.
#[global] Instance result_bind : MBind result := fun A B k m =>
  match m with
  | Ok a => k a
  | Raise e => Raise e
  end.

(** ** Python string methods (ASCII) *)

Module Py.

Definition code (c : ascii) : N := N_of_ascii c.

Definition islower (c : ascii) : bool := (97 <=? code c)%N && (code c <=? 122)%N.
Definition isupper (c : ascii) : bool := (65 <=? code c)%N && (code c <=? 90)%N.

Definition upper (c : ascii) : ascii :=
  if islower c then ascii_of_N (code c - 32) else c.
Definition lower (c : ascii) : ascii :=
  if isupper c then ascii_of_N (code c + 32) else c.

(** [str.title]: a cased character is upper-cased when the previous
    character is not cased and lower-cased when it is. *)
Fixpoint title_go (previous_is_cased : bool) (s : string) : string :=
  match s with
  | EmptyString => EmptyString
  | String c s' =>
      if islower c then
        String (if previous_is_cased then c else upper c) (title_go true s')
      else if isupper c then
        String (if previous_is_cased then lower c else c) (title_go true s')
      else String c (title_go false s')
  end.

Definition title (s : string) : string := title_go false s.

(** [s[:n]] *)
Definition slice_to (n : nat) (s : string) : string := String.substring 0 n s.

(** Whitespace of [str.strip()] and [int()]: TAB..CR, FS..US and space. *)
Definition isspace (c : ascii) : bool :=
  ((9 <=? code c)%N && (code c <=? 13)%N)
  || ((28 <=? code c)%N && (code c <=? 32)%N).

Fixpoint lstrip (s : string) : string :=
  match s with
  | String c s' => if isspace c then lstrip s' else s
  | EmptyString => EmptyString
  end.

Definition strip (s : string) : string :=
  String.rev (lstrip (String.rev (lstrip s))).

(** [s.split(sep)] for a one-character separator. *)
Fixpoint split_go (sep : ascii) (cur : string) (s : string) : list string :=
  match s with
  | EmptyString => [String.rev cur]
  | String c s' =>
      if Ascii.eqb c sep then String.rev cur :: split_go sep EmptyString s'
      else split_go sep (String c cur) s'
  end.

Definition split (sep : ascii) (s : string) : list string :=
  split_go sep EmptyString s.

Definition digit (c : ascii) : option Z :=
  if ((48 <=? code c)%N && (code c <=? 57)%N)%bool
  then Some (Z.of_N (code c) - 48) else None.

(** Digits of an integer literal: single underscores may separate digits. *)
Fixpoint digits_go (acc : Z) (after_digit : bool) (s : string) : option Z :=
  match s with
  | EmptyString => if after_digit then Some acc else None
  | String c s' =>
      match digit c with
      | Some d => digits_go (acc * 10 + d) true s'
      | None =>
          if (Ascii.eqb c "_" && after_digit)%bool
          then digits_go acc false s' else None
      end
  end.

(** [int(s)], base 10. *)
Definition int (s : string) : result Z :=
  let body :=
    match strip s with
    | String "+" s' => option_map (fun z => z) (digits_go 0 false s')
    | String "-" s' => option_map Z.opp (digits_go 0 false s')
    | s' => digits_go 0 false s'
    end in
  match body with
  | Some z => Ok z
  | None => Raise ValueError
  end.

End Py.

(** ** [datetime] (proleptic Gregorian calendar, as in CPython's
       [_pydatetime]) *)

Module Datetime.

Definition is_leap (year : Z) : bool :=
  (year mod 4 =? 0) && (negb (year mod 100 =? 0) || (year mod 400 =? 0)).

Definition days_before_year (year : Z) : Z :=
  let y := year - 1 in y * 365 + y / 4 - y / 100 + y / 400.

Definition days_in_month (year month : Z) : Z :=
  if month =? 2 then (if is_leap year then 29 else 28)
  else if (month =? 4) || (month =? 6) || (month =? 9) || (month =? 11)
       then 30 else 31.

Definition DAYS_BEFORE_MONTH (month : Z) : Z :=
  nth (Z.to_nat month) [0; 0; 31; 59; 90; 120; 151; 181; 212; 243; 273; 304; 334] 0.

Definition days_before_month (year month : Z) : Z :=
  DAYS_BEFORE_MONTH month + (if (2 <? month) && is_leap year then 1 else 0).

Definition ymd2ord (year month day : Z) : Z :=
  days_before_year year + days_before_month year month + day.

(** A naive datetime: its proleptic ordinal day and the seconds elapsed
    since midnight (sub-second precision is dropped). *)
Record datetime : Type := mk_datetime { ordinal : Z; second : Z }.

(** [datetime(year, month, day)]: the constructor checks its fields. *)
Definition make (year month day : Z) : result datetime :=
  if (1 <=? year) && (year <=? 9999) && (1 <=? month) && (month <=? 12)
     && (1 <=? day) && (day <=? days_in_month year month)
  then Ok (mk_datetime (ymd2ord year month day) 0)
  else Raise ValueError.

(** [(a - b).days]: a timedelta is normalised so that its seconds are in
    [0, 86400), hence the days are the floor of the difference. *)
Definition sub_days (a b : datetime) : Z :=
  ((ordinal a * 86400 + second a) - (ordinal b * 86400 + second b)) / 86400.

End Datetime.

(** ** pandas cells and frames *)

(** A scalar of a DataFrame cell. *)
Inductive cell : Type :=
| CNone
| CNaN
| CStr (s : string)
| CInt (z : Z)
| CFloat (q : Qc).

(** A cell of the Date column may also hold a Timestamp or NaT. *)
Inductive date_cell : Type :=
| DCell (c : cell)
| DTimestamp (t : Z)
| DNaT.

Inductive dtype : Type := object | int64 | float64 | datetime64.

#[global] Instance cell_eq_dec : EqDecision cell.
Proof. solve_decision. Defined.
#[global] Instance dtype_eq_dec : EqDecision dtype.
Proof. solve_decision. Defined.

Definition isna (c : cell) : bool :=
  match c with
  | CNone | CNaN => true
  | _ => false
  end.

(** The scalar conversions of pandas whose code is not part of the
    program: the text of a float, the numeric reading of a string and the
    date reading of a non-null scalar ([None] where pandas cannot convert). *)
Class Pandas : Type := {
  float_repr : Qc -> string;
  to_numeric_str : string -> option Qc;
  to_datetime_scalar : cell -> option Z
}.

(** One row of an imported table, over the seven canonical columns.  The
    field of a column that the table does not have is never read. *)
Record RawRow : Type := {
  raw_Month : cell;
  raw_Date : date_cell;
  raw_Category : cell;
  raw_Type : cell;
  raw_Budget : cell;
  raw_Actual : cell;
  raw_Section : cell
}.

(** [dtypes] has an entry for exactly the columns of the frame. *)
Record DataFrame : Type := {
  dtypes : gmap string dtype;
  rows : list RawRow
}.

(** A row as [ensure_columns] leaves it: Month and Category are str, Date
    is a Timestamp or NaT, Type is a str or NaN, the amounts are floats and
    Section is whatever the catalog or the row supplied. *)
Record Row : Type := {
  Month : string;
  Date : option Z;
  Category : string;
  Type_ : option string;
  Budget : Qc;
  Actual : Qc;
  Section : cell
}.

(** ** Session state *)

Record CatalogRow : Type := {
  cat_Category : cell;
  cat_Type : cell;
  cat_Section : cell
}.

(** The catalog table: its column names and its rows over the three
    required columns. *)
Record Catalog : Type := {
  cat_columns : list string;
  cat_rows : list CatalogRow
}.

Record Settings : Type := {
  default_month : string;
  hard_caps : list (string * Qc)
}.

Record SessionState : Type := {
  data : DataFrame;
  categories : Catalog;
  budgets : list (string * Qc);
  settings : Settings
}.

(** [Series.to_dict()] of a key column and a value column: a later row
    overrides an earlier one with the same key. *)
Definition to_dict {V : Type} (kvs : list (string * V)) : gmap string V :=
  foldl (fun m kv => <[kv.1 := kv.2]> m) ∅ kvs.

Definition catalog_row (category type section : string) : CatalogRow :=
  {| cat_Category := CStr category; cat_Type := CStr type;
     cat_Section := CStr section |}.

(** The session state that the script creates on its first run;
    [this_month] is [datetime.now().strftime("%Y-%m")]. *)
Definition initial_categories : Catalog :=
  {| cat_columns := ["Category"; "Type"; "Section"];
     cat_rows :=
       [ catalog_row "Salary" "Income" "Savings";
         catalog_row "Other Income" "Income" "Savings";
         catalog_row "Rent" "Expense" "Needs";
         catalog_row "Insurance" "Expense" "Needs";
         catalog_row "Phone" "Expense" "Needs";
         catalog_row "Debts" "Expense" "Needs";
         catalog_row "Phone Subs (ChatGPT, Google Cloud, Apple Music, Extra)"
           "Expense" "Wants";
         catalog_row "Clothing" "Expense" "Wants";
         catalog_row "Restaurant & Food Delivery" "Expense" "Wants";
         catalog_row "Bet" "Expense" "Wants";
         catalog_row "Trade" "Expense" "Wants";
         catalog_row "Groceries" "Expense" "Needs";
         catalog_row "Transport" "Expense" "Needs";
         catalog_row "Utilities" "Expense" "Needs";
         catalog_row "Entertainment" "Expense" "Wants";
         catalog_row "Miscellaneous" "Expense" "Wants" ] |}.

Definition initial_state (this_month : string) : SessionState :=
  {| data :=
       {| dtypes :=
            {[ "Month" := object; "Date" := object; "Category" := object;
               "Type" := object; "Budget (€)" := object;
               "Actual (€)" := object; "Section" := object ]};
          rows := [] |};
     categories := initial_categories;
     budgets :=
       omap (fun r => match cat_Category r with
                      | CStr c => Some (c, 0%Qc)
                      | _ => None
                      end) (cat_rows initial_categories);
     settings := {| default_month := this_month; hard_caps := [] |} |}.

(** ** The normalizer *)

Section Normalizer.
Context `{Pandas}.

(** [Series.astype(str)] on one cell. *)
Definition astype_str (c : cell) : string :=
  match c with
  | CNone => "None"
  | CNaN => "nan"
  | CStr s => s
  | CInt z => pretty z
  | CFloat q => float_repr q
  end.

Definition fillna (value c : cell) : cell := if isna c then value else c.

(** [pd.to_datetime(_, errors="coerce")] on one cell. *)
Definition to_datetime_coerce (d : date_cell) : option Z :=
  match d with
  | DTimestamp t => Some t
  | DNaT => None
  | DCell c => if isna c then None else to_datetime_scalar c
  end.

(** [pd.to_numeric(_, errors="coerce")] on one cell; [None] is NaN. *)
Definition to_numeric_coerce (c : cell) : option Qc :=
  match c with
  | CNone | CNaN => None
  | CStr s => to_numeric_str s
  | CInt z => Some (Qc_of_Z z)
  | CFloat q => Some q
  end.

Definition is_str (c : cell) : bool :=
  match c with
  | CStr _ => true
  | _ => false
  end.

(** The [.str] accessor validates the column: it must be an object column
    whose inferred type (nulls skipped) is "string", "empty", "mixed" or
    "mixed-integer", that is, all null or holding at least one str. *)
Definition str_accessor (dt : dtype) (col : list cell) : result unit :=
  if decide (dt = object) then
    if forallb isna col || existsb is_str col then Ok tt
    else Raise AttributeError
  else Raise AttributeError.

(** [Series.str.title()] on one cell of a validated column. *)
Definition str_title (c : cell) : option string :=
  match c with
  | CStr s => Some (Py.title s)
  | _ => None
  end.

(** [df[c]] after the loop that adds the missing columns as [None]. *)
Definition column {A : Type} (df : DataFrame) (c : string) (none : A)
    (field : RawRow -> A) (r : RawRow) : A :=
  match dtypes df !! c with
  | Some _ => field r
  | None => none
  end.

Definition column_dtype (df : DataFrame) (c : string) : dtype :=
  default object (dtypes df !! c).

(** The keys and values of [set_index("Category")["Section"]]; a key that
    is not a str can never equal the str of a row's Category. *)
Definition catalog_pairs (cat : Catalog) : list (string * cell) :=
  omap (fun r => match cat_Category r with
                 | CStr k => Some (k, cat_Section r)
                 | _ => None
                 end) (cat_rows cat).

Definition has_column (c : string) (columns : list string) : bool :=
  bool_decide (c ∈ columns).

(** [categories.set_index("Category")["Section"].to_dict()] *)
Definition section_map (cat : Catalog) : result (gmap string cell) :=
  if has_column "Category" (cat_columns cat)
     && has_column "Section" (cat_columns cat)
  then Ok (to_dict (catalog_pairs cat))
  else Raise KeyError.

Definition ensure_row (s : SessionState) (df : DataFrame)
    (cat_map : gmap string cell) (r : RawRow) : Row :=
  let category := astype_str (column df "Category" CNone raw_Category r) in
  {| Month := Py.slice_to 7 (astype_str
       (fillna (CStr (default_month (settings s)))
               (column df "Month" CNone raw_Month r)));
     Date := to_datetime_coerce (column df "Date" (DCell CNone) raw_Date r);
     Category := category;
     Type_ := str_title (column df "Type" CNone raw_Type r);
     Budget := default 0%Qc
       (to_numeric_coerce (column df "Budget (€)" CNone raw_Budget r));
     Actual := default 0%Qc
       (to_numeric_coerce (column df "Actual (€)" CNone raw_Actual r));
     Section := default (column df "Section" CNone raw_Section r)
       (cat_map !! category) |}.

Definition ensure_columns (s : SessionState) (df : DataFrame)
    : result (list Row) :=
  _ ← str_accessor (column_dtype df "Type")
        (map (column df "Type" CNone raw_Type) (rows df));
  cat_map ← section_map (categories s);
  Ok (map (ensure_row s df cat_map) (rows df)).




End Normalizer.

(** ** Sorting, grouping and summing *)

(** [Series.sum()] *)
Definition Series_sum (l : list Qc) : Qc := foldr Qcplus 0%Qc l.

Section GroupBy.
Context {A K : Type} `{EqDecision K}.
Variable leb : K -> K -> bool.

(** Stable insertion into a list sorted by [key]. *)
Fixpoint insert_by {B : Type} (key : B -> K) (x : B) (l : list B) : list B :=
  match l with
  | [] => [x]
  | y :: l' => if leb (key x) (key y) then x :: l else y :: insert_by key x l'
  end.

(** [sort_values(key)] *)
Definition sort_values {B : Type} (key : B -> K) (l : list B) : list B :=
  foldr (insert_by key) [] l.

(** The order in which [sort_values(key)] leaves two rows. *)
Definition key_le {B : Type} (key : B -> K) (a b : B) : Prop :=
  leb (key a) (key b) = true.

(** [groupby(key)]: one group per distinct non-null key, the keys in
    ascending order, each group holding its rows in their original order
    (rows whose key is null are dropped). *)
Definition groupby (key : A -> option K) (l : list A) : list (K * list A) :=
  map (fun k => (k, filter (fun r => key r = Some k) l))
      (sort_values id (remove_dups (omap key l))).

End GroupBy.

(** ** Monthly aggregation *)

Record MonthSummary : Type := {
  ms_Month : string;
  ms_Income : Qc;
  ms_Expense : Qc;
  ms_Savings : Qc
}.

Definition Income_column (r : Row) : Qc :=
  if decide (Type_ r = Some "Income") then Actual r else 0%Qc.

Definition Expense_column (r : Row) : Qc :=
  if decide (Type_ r = Some "Expense") then Actual r else 0%Qc.

Definition aggregate_monthly (df : list Row) : list MonthSummary :=
  let grouped := groupby String.leb (fun r => Some (Month r)) df in
  let sums :=
    map (fun g => (g.1, (Series_sum (map Income_column g.2),
                         Series_sum (map Expense_column g.2)))) grouped in
  let m := sort_values String.leb fst sums in
  map (fun x => {| ms_Month := x.1;
                   ms_Income := x.2.1;
                   ms_Expense := x.2.2;
                   ms_Savings := (x.2.1 - x.2.2)%Qc |}) m.

Definition current_month_key (s : SessionState) (df : list Row) : string :=
  match last df with
  | None => default_month (settings s)
  | Some r => Month r
  end.

(** [data[data["Month"]==cm]] *)
Definition month_rows (cm : string) (df : list Row) : list Row :=
  filter (fun r => Month r = cm) df.

(** [dfm.loc[dfm["Type"]=="Income","Actual (€)"].sum()] *)
Definition month_income (dfm : list Row) : Qc :=
  Series_sum (map Actual (filter (fun r => Type_ r = Some "Income") dfm)).

(** [dfm.loc[dfm["Type"]=="Expense","Actual (€)"].sum()] *)
Definition month_expenses (dfm : list Row) : Qc :=
  Series_sum (map Actual (filter (fun r => Type_ r = Some "Expense") dfm)).

Definition month_savings (dfm : list Row) : Qc :=
  (month_income dfm - month_expenses dfm)%Qc.

Definition month_savings_rate (dfm : list Row) : Qc :=
  if bool_decide (0 < month_income dfm)%Qc
  then (month_savings dfm / month_income dfm * Q2Qc 100)%Qc else 0%Qc.

(** ** Per-category summaries of the current month *)

(** [dfm["Category"].map(bmap).fillna(dfm["Budget (€)"])] on one row. *)
Definition with_budget (bmap : gmap string Qc) (r : Row) : Row :=
  {| Month := Month r; Date := Date r; Category := Category r;
     Type_ := Type_ r;
     Budget := default (Budget r) (bmap !! Category r);
     Actual := Actual r; Section := Section r |}.

(** A non-null Section as a grouping key: numbers group by value. *)
Definition section_key (c : cell) : option (string + Qc) :=
  match c with
  | CNone | CNaN => None
  | CStr s => Some (inl s)
  | CInt z => Some (inr (Qc_of_Z z))
  | CFloat q => Some (inr q)
  end.

Definition cat_key : Type := string * string * (string + Qc).

Definition cat_sum_key (r : Row) : option cat_key :=
  t ← Type_ r; s ← section_key (Section r); Some (Category r, t, s).

(** Sections that mix str and numbers have no order in pandas; numbers
    are put first here. *)
Definition section_leb (a b : string + Qc) : bool :=
  match a, b with
  | inl x, inl y => String.leb x y
  | inr x, inr y => bool_decide (x <= y)%Qc
  | inr _, inl _ => true
  | inl _, inr _ => false
  end.

(** Ascending order of the key tuples. *)
Definition cat_key_leb (a b : cat_key) : bool :=
  let '(c1, t1, s1) := a in
  let '(c2, t2, s2) := b in
  if decide (c1 = c2) then
    if decide (t1 = t2) then section_leb s1 s2 else String.leb t1 t2
  else String.leb c1 c2.

Record CategorySummary : Type := {
  cs_Category : string;
  cs_Type : string;
  cs_Section : string + Qc;
  cs_Budget : Qc;
  cs_Actual : Qc;
  cs_Variance : Qc
}.

(** The "Categories" table of the Budget & Entries tab. *)
Definition cat_sum (bmap : gmap string Qc) (dfm : list Row)
    : list CategorySummary :=
  let dfm := map (with_budget bmap) dfm in
  map (fun g =>
         let budget := Series_sum (map Budget g.2) in
         let actual := Series_sum (map Actual g.2) in
         let variance := (budget - actual)%Qc in
         let income := bool_decide (g.1.1.2 = "Income") in
         {| cs_Category := g.1.1.1;
            cs_Type := g.1.1.2;
            cs_Section := g.1.2;
            cs_Budget := if income then 0%Qc else budget;
            cs_Actual := actual;
            cs_Variance := if income then 0%Qc else variance |})
      (groupby cat_key_leb cat_sum_key dfm).


Record ExpenseSummary : Type := {
  es_Category : string;
  es_Budget : Qc;
  es_Actual : Qc;
  es_Variance : Qc
}.

(** The "Variance by Category" table of the Analytics and Reports tabs. *)
Definition exp_only (bmap : gmap string Qc) (dfm : list Row)
    : list ExpenseSummary :=
  let dfm := map (with_budget bmap) dfm in
  map (fun g =>
         let budget := Series_sum (map Budget g.2) in
         let actual := Series_sum (map Actual g.2) in
         {| es_Category := g.1;
            es_Budget := budget;
            es_Actual := actual;
            es_Variance := (budget - actual)%Qc |})
      (groupby String.leb (fun r => Some (Category r))
         (filter (fun r => Type_ r = Some "Expense") dfm)).

(** ** 3-month rolling average *)

Definition mean (w : list Qc) : Qc :=
  (Series_sum w / Qc_of_Z (Z.of_nat (length w)))%Qc.

(** [Series.rolling(window, min_periods).mean()]: the window slides over
    the series, dropping its oldest point once it is full; a point is NaN
    ([None]) while the window holds fewer than [min_periods] points. *)
Fixpoint rolling_go (window min_periods : nat) (w : list Qc) (xs : list Qc)
    : list (option Qc) :=
  match xs with
  | [] => []
  | x :: xs' =>
      let w1 := w ++ [x] in
      let w2 := if Nat.ltb window (length w1) then tail w1 else w1 in
      (if Nat.leb min_periods (length w2) then Some (mean w2) else None)
        :: rolling_go window min_periods w2 xs'
  end.

Definition rolling_mean (window min_periods : nat) (xs : list Qc)
    : list (option Qc) :=
  rolling_go window min_periods [] xs.

Record RollRow : Type := {
  roll_Month : Z;
  roll_Category : string;
  roll_Actual : Qc;
  Roll3 : option Qc
}.

Definition keycats : list string := ["Restaurant & Food Delivery"; "Clothing"].

Definition pair_leb {X Y : Type} `{EqDecision X}
    (lebx : X -> X -> bool) (leby : Y -> Y -> bool) (a b : X * Y) : bool :=
  if decide (a.1 = b.1) then leby a.2 b.2 else lebx a.1 b.1.

(** The rows of one category, in the order of the table. *)
Definition category_series (roll : list (string * Z * Qc)) (cat : string)
    : list (string * Z * Qc) :=
  filter (fun y => y.1.1 = cat) roll.

(** [groupby("Category")["Actual (€)"].rolling(3, min_periods=1).mean()],
    put back on the rows by their index: the row at index [i] gets the
    rolling mean of its category's series at its position in that series. *)
Definition assign_Roll3 (roll : list (string * Z * Qc)) : list RollRow :=
  imap (fun i x =>
          {| roll_Month := x.1.2;
             roll_Category := x.1.1;
             roll_Actual := x.2;
             Roll3 :=
               mjoin (rolling_mean 3 1 (map snd (category_series roll x.1.1))
                      !! length (category_series (take i roll) x.1.1)) |})
       roll.

(** The last [n] points of a series (all of them when it is shorter). *)
Definition last_points {A : Type} (n : nat) (l : list A) : list A :=
  drop (length l - n) l.

Section Analytics.
Context `{Pandas}.

(** [pd.to_datetime] of one str, errors raised. *)
Definition to_datetime_raise (s : string) : result Z :=
  match to_datetime_scalar (CStr s) with
  | Some t => Ok t
  | None => Raise ValueError
  end.

Fixpoint mapM {A B : Type} (f : A -> result B) (l : list A) : result (list B) :=
  match l with
  | [] => Ok []
  | x :: l' => y ← f x; ys ← mapM f l'; Ok (y :: ys)
  end.

(** The rolling-average block; [None] when no row is in a tracked
    category (the block then only shows a hint). *)
Definition rolling_average (data : list Row) : result (option (list RollRow)) :=
  let dfk := filter (fun r => Type_ r = Some "Expense" ∧ Category r ∈ keycats)
               data in
  if decide (dfk = []) then Ok None else
  let roll :=
    map (fun g => (g.1, Series_sum (map Actual g.2)))
        (groupby (pair_leb String.leb String.leb)
           (fun r => Some (Month r, Category r)) dfk) in
  dated ← mapM (fun x : string * string * Qc =>
                  t ← to_datetime_raise (x.1.1 +:+ "-01");
                  Ok (x.1.2, t, x.2)) roll;
  let sorted := sort_values (pair_leb String.leb Z.leb) fst dated in
  Ok (Some (assign_Roll3 sorted)).

(** [roll[roll["Category"]==cat]] *)
Definition roll_sub (cat : string) (roll : list RollRow) : list RollRow :=
  filter (fun r => roll_Category r = cat) roll.

(** ** Pace tracker *)

Record Pace : Type := {
  days_in_month : Z;
  today_in_month : Z;
  monthly_budget_total : Qc;
  spent_to_date : Qc;
  expected_spend_to_date : Qc
}.

(** [year, mon = map(int, cm.split("-"))] *)
Definition year_mon (cm : string) : result (Z * Z) :=
  match Py.split "-" cm with
  | [a; b] => year ← Py.int a; mon ← Py.int b; Ok (year, mon)
  | _ => Raise ValueError
  end.

Definition pace (cm : string) (now : Datetime.datetime)
    (exp_only : list ExpenseSummary) : result Pace :=
  ym ← year_mon cm;
  let '(year, mon) := ym in
  start ← Datetime.make year mon 1;
  end_ ← (if mon =? 12 then Datetime.make (year + 1) 1 1
          else Datetime.make year (mon + 1) 1);
  let days_in_month := Datetime.sub_days end_ start in
  let today_in_month :=
    Z.min (Datetime.sub_days now start + 1) days_in_month in
  let monthly_budget_total :=
    if decide (exp_only = []) then 0%Qc
    else Series_sum (map es_Budget exp_only) in
  let spent_to_date :=
    if decide (exp_only = []) then 0%Qc
    else Series_sum (map es_Actual exp_only) in
  let expected_spend_to_date :=
    if days_in_month =? 0 then 0%Qc
    else (monthly_budget_total
          * (Qc_of_Z today_in_month / Qc_of_Z days_in_month))%Qc in
  Ok {| days_in_month := days_in_month;
        today_in_month := today_in_month;
        monthly_budget_total := monthly_budget_total;
        spent_to_date := spent_to_date;
        expected_spend_to_date := expected_spend_to_date |}.

(** ** Guardrails *)

(** The two messages of the block, with the values they interpolate. *)
Inductive alert : Type :=
| BudgetBurn
| HardCapExceeded (cat : string) (cap : Qc).

#[global] Instance alert_eq_dec : EqDecision alert.
Proof. solve_decision. Defined.


Definition spent_cat (exp_only : list ExpenseSummary) (cat : string) : Qc :=
  Series_sum (map es_Actual (filter (fun e => es_Category e = cat) exp_only)).

Definition guardrails (s : Settings) (monthly_budget_total : Qc)
    (today_in_month : Z) (spent_to_date : Qc)
    (exp_only : list ExpenseSummary) : list alert :=
  let alerts := [] in
  let alerts :=
    if bool_decide (0 < monthly_budget_total)%Qc
       && (today_in_month <? 20)
       && bool_decide (Q2Qc (8 # 10) * monthly_budget_total < spent_to_date)%Qc
    then alerts ++ [BudgetBurn] else alerts in
  let caps := hard_caps s in
  (* [if caps:] only skips the loop over an empty dict *)
  foldl (fun alerts cc =>
           let '(cat, cap) := cc : string * Qc in
           if bool_decide (cap < spent_cat exp_only cat)%Qc
           then alerts ++ [HardCapExceeded cat cap] else alerts)
        alerts caps.





(** ** The Budget & Entries tab *)

Record BudgetEntries : Type := {
  be_cm : string;
  be_month_income : Qc;
  be_month_expenses : Qc;
  be_month_savings : Qc;
  be_month_savings_rate : Qc;
  be_cat_sum : list CategorySummary
}.

(** [None] is the "No data yet." page. *)
Definition budget_entries_tab (s : SessionState) : result (option BudgetEntries) :=
  data ← ensure_columns s (data s);
  if decide (data = []) then Ok None else
  let cm := current_month_key s data in
  let dfm := month_rows cm data in
  let bmap := to_dict (budgets s) in
  Ok (Some {| be_cm := cm;
              be_month_income := month_income dfm;
              be_month_expenses := month_expenses dfm;
              be_month_savings := month_savings dfm;
              be_month_savings_rate := month_savings_rate dfm;
              be_cat_sum := cat_sum bmap dfm |}).

(** ** The Analytics tab *)

Record Analytics : Type := {
  an_monthly : list MonthSummary;
  an_cm : string;
  an_exp_only : list ExpenseSummary;
  an_roll : option (list RollRow);
  an_pace : Pace;
  an_alerts : list alert
}.

(** [None] is the "No data yet." page. *)
Definition analytics_tab (s : SessionState) (now : Datetime.datetime)
    : result (option Analytics) :=
  data ← ensure_columns s (data s);
  if decide (data = []) then Ok None else
  let monthly := aggregate_monthly data in
  let cm := current_month_key s data in
  let dfm := month_rows cm data in
  let bmap := to_dict (budgets s) in
  let exp_only := exp_only bmap dfm in
  roll ← rolling_average data;
  p ← pace cm now exp_only;
  Ok (Some {| an_monthly := monthly;
              an_cm := cm;
              an_exp_only := exp_only;
              an_roll := roll;
              an_pace := p;
              an_alerts :=
                guardrails (settings s) (monthly_budget_total p)
                  (today_in_month p) (spent_to_date p) exp_only |}).

End Analytics.

(** ** Category catalog upload *)

Inductive message : Type :=
| success (text : string).



(** ** Sample data *)

(** A date [YYYY-MM-DD] as its ordinal day. *)
Definition iso_date (s : string) : option Z :=
  match Py.split "-" s with
  | [y; m; d] =>
      match (year ← Py.int y; mon ← Py.int m; day ← Py.int d;
             Datetime.make year mon day) with
      | Ok t => Some (Datetime.ordinal t)
      | Raise _ => None
      end
  | _ => None
  end.

(** Stand-ins for the conversions of pandas, to run the model: numbers
    are read as integer literals and dates as [YYYY-MM-DD]. *)
Definition sample_pandas : Pandas :=
  {| float_repr := fun _ => "0.0";
     to_numeric_str := fun s => match Py.int s with
                                | Ok z => Some (Qc_of_Z z)
                                | Raise _ => None
                                end;
     to_datetime_scalar := fun c => match c with
                                    | CStr s => iso_date s
                                    | _ => None
                                    end |}.

Definition raw_row (month category type actual : cell) : RawRow :=
  {| raw_Month := month; raw_Date := DCell CNone; raw_Category := category;
     raw_Type := type; raw_Budget := CNone; raw_Actual := actual;
     raw_Section := CNone |}.

(** The CSV [Month,Category,Type,Actual (€)] with the two lines
    [2024-01-15,Rent,expense,800] and [,Gift,,abc]. *)
Definition sample_import : DataFrame :=
  {| dtypes := {[ "Month" := object; "Category" := object; "Type" := object;
                  "Actual (€)" := object ]};
     rows := [ raw_row (CStr "2024-01-15") (CStr "Rent") (CStr "expense")
                 (CStr "800");
               raw_row CNaN (CStr "Gift") CNaN (CStr "abc") ] |}.

(** The CSV [Month,Category,Type,Actual (€)] with the one line
    [2024-01,Rent,1,800]: its Type column is read as int64. *)
Definition numeric_type_import : DataFrame :=
  {| dtypes := {[ "Month" := object; "Category" := object; "Type" := int64;
                  "Actual (€)" := int64 ]};
     rows := [ raw_row (CStr "2024-01") (CStr "Rent") (CInt 1) (CInt 800) ] |}.



Definition sample_row (month category type : string) (budget actual : Z) : Row :=
  {| Month := month; Date := None; Category := category; Type_ := Some type;
     Budget := Qc_of_Z budget; Actual := Qc_of_Z actual;
     Section := CStr "Needs" |}.

(** Clothing expenses over four months, entered out of order. *)
Definition sample_clothing : list Row :=
  [ sample_row "2024-02" "Clothing" "Expense" 0 50;
    sample_row "2024-01" "Clothing" "Expense" 0 60;
    sample_row "2024-04" "Clothing" "Expense" 0 100;
    sample_row "2024-01" "Salary" "Income" 0 2000;
    sample_row "2024-03" "Clothing" "Expense" 0 10 ].

Definition sample_settings : Settings :=
  {| default_month := "2024-01";
     hard_caps := [("Restaurant", Qc_of_Z 100); ("Rent", Qc_of_Z 900)] |}.

Definition sample_expenses (budget : Z) : list ExpenseSummary :=
  [ {| es_Category := "Rent"; es_Budget := Qc_of_Z budget;
       es_Actual := 0%Qc; es_Variance := Qc_of_Z budget |} ].

(** * More of the script *)

(** ** Risk guards (Analytics tab) *)




(** ** 50/30/20 view (Analytics tab) *)






(** ** Recommendations (Reports tab) *)

Definition Qcleb (x y : Qc) : bool := bool_decide (x <= y)%Qc.

(** [exp_only[exp_only["Variance (€)"]<0].sort_values("Variance (€)").head(5)];
    the order that pandas gives to categories of equal variance is not
    fixed, they are kept in the order of the table here. *)
Definition overs (exp_only : list ExpenseSummary) : list ExpenseSummary :=
  take 5 (sort_values Qcleb es_Variance
            (filter (fun e => (es_Variance e < 0)%Qc) exp_only)).



(** The lines of the "Recommendations" page, with the values they
    interpolate. *)
Inductive recommendation : Type :=
| IncreaseSavings (goal_gap : Qc)
| Reduce (category : string) (amount : Qc)
| Subscriptions (total : Qc)
| NoImmediateRisks.

#[global] Instance recommendation_eq_dec : EqDecision recommendation.
Proof. solve_decision. Defined.


(** ** Paydays (Settings tab) *)

Inductive notice : Type :=
| warning (text : string).

(** [",".join(map(str, paydays))], the text the field starts with. *)
Definition paydays_text (paydays : list Z) : string :=
  String.concat "," (map pretty paydays).

(** The [try] block: the parsed list, or the previous list and a warning
    when a part is not an integer. *)
Definition parse_paydays (paydays : list Z) (paydays_str : string)
    : list Z * list notice :=
  match mapM (fun x => Py.int (Py.strip x))
          (filter (fun x => Py.strip x <> "") (Py.split "," paydays_str)) with
  | Ok l => (l, [])
  | Raise _ =>
      (paydays, [warning "Invalid paydays format. Use numbers like 5,20"])
  end.

(** ** Hard caps (Settings tab) *)

(** [d.get(k)] and [d[k] = v] on a dict kept in insertion order. *)
Fixpoint dict_get {V : Type} (k : string) (d : list (string * V)) : option V :=
  match d with
  | [] => None
  | (k', v) :: d' => if decide (k' = k) then Some v else dict_get k d'
  end.

Fixpoint dict_set {V : Type} (k : string) (v : V) (d : list (string * V))
    : list (string * V) :=
  match d with
  | [] => [(k, v)]
  | (k', v') :: d' =>
      if decide (k' = k) then (k, v) :: d' else (k', v') :: dict_set k v d'
  end.

(** [categories["Category"].tolist()] for a catalog of text categories:
    the catalog has the Category column and all its categories are str.
    [None] otherwise: a catalog without the column raises, and one with
    other values (numbers, or nulls for empty fields) is outside this
    model of the two editors below. *)
Definition text_categories (cat : Catalog) : option (list string) :=
  if has_column "Category" (cat_columns cat)
     && forallb (fun r => is_str (cat_Category r)) (cat_rows cat)
  then Some (omap (fun r => match cat_Category r with
                            | CStr c => Some c
                            | _ => None
                            end) (cat_rows cat))
  else None.

(** The rows shown in the caps editor: one per category of the catalog,
    with its cap or 0. *)
Definition cap_rows (cat : Catalog) (hard_caps : list (string * Qc))
    : option (list (string * Qc)) :=
  cats ← text_categories cat;
  Some (map (fun c => (c, default 0%Qc (dict_get c hard_caps))) cats).

(** The dict comprehension over the edited rows: the rows with a cap
    above 0. *)
Definition hard_caps_of (caps_edit : list (string * Qc)) : list (string * Qc) :=
  foldl (fun d row => if bool_decide (0 < row.2)%Qc
                      then dict_set row.1 row.2 d else d) [] caps_edit.

(** ** Budgets (Home tab) *)

(** The rows of a left merge for one key of the left table: the rows of
    the right table with that key, in their order, or one row without a
    value, which [fillna(0)] then fills. *)
Definition merge_left (budgets : list (string * Qc)) (c : string)
    : list (string * Qc) :=
  let matches := filter (fun b => b.1 = c) budgets in
  if decide (matches = []) then [(c, 0%Qc)] else matches.

(** [pd.merge(categories[["Category"]], budgets, on="Category", how="left")]
    with the missing budgets filled with 0, for a catalog of text
    categories. *)
Definition merge_budgets (cat : Catalog) (budgets : list (string * Qc))
    : option (list (string * Qc)) :=
  cats ← text_categories cat;
  Some (cats ≫= merge_left budgets).

(** ** Quick entry and import (Home tab) *)


(** The fields of the quick-entry form. *)
Record Entry : Type := {
  entry_date : Z;
  entry_month : string;
  entry_category : cell;
  entry_type : string;
  entry_amount_actual : Qc;
  entry_amount_budget : Qc;
  entry_section : string
}.

(** The dtype that pandas infers for a column of one cell. *)
Definition cell_dtype (c : cell) : dtype :=
  match c with
  | CNone | CStr _ => object
  | CInt _ => int64
  | CNaN | CFloat _ => float64
  end.

(** [new_row = pd.DataFrame([{...}])], the one-row table of the form. *)
Definition new_row (e : Entry) : DataFrame :=
  {| dtypes :=
       {[ "Month" := object; "Date" := datetime64;
          "Category" := cell_dtype (entry_category e); "Type" := object;
          "Budget (€)" := float64; "Actual (€)" := float64;
          "Section" := object ]};
     rows := [ {| raw_Month := CStr (Py.slice_to 7 (entry_month e));
                  raw_Date := DTimestamp (entry_date e);
                  raw_Category := entry_category e;
                  raw_Type := CStr (entry_type e);
                  raw_Budget := CFloat (entry_amount_budget e);
                  raw_Actual := CFloat (entry_amount_actual e);
                  raw_Section := CStr (entry_section e) |} ] |}.

(** The dtype of a column of [pd.concat]: the common dtype of the two
    parts; a part without the column contributes NaN.  The cells keep
    their values. *)
Definition common_dtype (a b : dtype) : dtype :=
  if decide (a = b) then a
  else match a, b with
       | int64, float64 | float64, int64 => float64
       | _, _ => object
       end.

(** The dtype of a column that only one part has: the NaN of the rows of
    the other part turns an int64 column into a float64 column. *)
Definition with_nan (other_rows : list RawRow) (dt : dtype) : dtype :=
  match other_rows, dt with
  | _ :: _, int64 => float64
  | _, _ => dt
  end.

(** A row of a part of [pd.concat], with NaN in the columns that the
    part does not have. *)
Definition fill_missing (df : DataFrame) (r : RawRow) : RawRow :=
  {| raw_Month := column df "Month" CNaN raw_Month r;
     raw_Date := column df "Date" (DCell CNaN) raw_Date r;
     raw_Category := column df "Category" CNaN raw_Category r;
     raw_Type := column df "Type" CNaN raw_Type r;
     raw_Budget := column df "Budget (€)" CNaN raw_Budget r;
     raw_Actual := column df "Actual (€)" CNaN raw_Actual r;
     raw_Section := column df "Section" CNaN raw_Section r |}.

(** [pd.concat([a, b], ignore_index=True)] *)
Definition pd_concat (a b : DataFrame) : DataFrame :=
  {| dtypes :=
       merge (fun x y =>
                match x, y with
                | Some dx, Some dy => Some (common_dtype dx dy)
                | Some dx, None => Some (with_nan (rows b) dx)
                | None, Some dy => Some (with_nan (rows a) dy)
                | None, None => None
                end) (dtypes a) (dtypes b);
     rows := map (fill_missing a) (rows a) ++ map (fill_missing b) (rows b) |}.

(** [st.session_state.data = df] *)
Definition with_data (s : SessionState) (df : DataFrame) : SessionState :=
  {| data := df; categories := categories s; budgets := budgets s;
     settings := settings s |}.

(** The submitted quick-entry form. *)
Definition add_entry (s : SessionState) (e : Entry)
    : SessionState * list message :=
  (with_data s (pd_concat (data s) (new_row e)), [success "Entry added."]).

Section DataImport.
Context `{Pandas}.



End DataImport.



(** ** More sample data *)

(** A catalog of two text categories. *)
Definition sample_catalog : Catalog :=
  {| cat_columns := ["Category"; "Type"; "Section"];
     cat_rows := [ catalog_row "Rent" "Expense" "Needs";
                   catalog_row "Gift" "Expense" "Wants" ] |}.

(** * Properties *)

(** ** Lists *)

Lemma filter_none {A : Type} (P : A -> Prop) `{forall x, Decision (P x)}
    (l : list A) :
  (forall x, x ∈ l -> ~ P x) -> filter P l = [].
Proof.
  induction l as [|x l IH]; intros Hl; [done|].
  rewrite filter_cons_False by (apply Hl; left).
  apply IH. intros y Hy. apply Hl. by right.
Qed.

Lemma filter_map {A B : Type} (f : A -> B) (P : B -> Prop)
    `{forall x, Decision (P x)} (l : list A) :
  filter P (map f l) = map f (filter (fun x => P (f x)) l).
Proof.
  induction l as [|x l IH]; simpl; [done|].
  rewrite !filter_cons. destruct (decide (P (f x))); simpl; by rewrite IH.
Qed.



Lemma StronglySorted_map_filter {A B : Type} (R : A -> A -> Prop)
    (R' : B -> B -> Prop) (P : A -> Prop) `{forall x, Decision (P x)}
    (f : A -> B) (l : list A) :
  (forall a b, P a -> P b -> R a b -> R' (f a) (f b)) ->
  StronglySorted R l -> StronglySorted R' (map f (filter P l)).
Proof.
  intros HR. induction 1 as [|x l Hs IH Hx]; [constructor|].
  rewrite filter_cons. destruct (decide (P x)) as [Hp|Hp]; [|done].
  simpl. constructor; [done|].
  apply Forall_map, Forall_forall. intros y [Hy Hin]%list_elem_of_filter.
  apply HR; try done. rewrite Forall_forall in Hx. by apply Hx.
Qed.

(** ** Sorting and grouping *)

Section SortFacts.
Context {K : Type} `{EqDecision K}.
Variable leb : K -> K -> bool.
Hypothesis leb_total : forall a b, leb a b = true \/ leb b a = true.
Hypothesis leb_trans :
  forall a b c, leb a b = true -> leb b c = true -> leb a c = true.

Lemma insert_by_perm {B : Type} (key : B -> K) (x : B) (l : list B) :
  insert_by leb key x l ≡ₚ x :: l.
Proof.
  induction l as [|y l IH]; simpl; [done|].
  destruct (leb (key x) (key y)); [done|].
  rewrite IH. apply perm_swap.
Qed.

Lemma sort_values_perm {B : Type} (key : B -> K) (l : list B) :
  sort_values leb key l ≡ₚ l.
Proof.
  induction l as [|x l IH]; simpl; [done|].
  unfold sort_values in *. simpl. by rewrite insert_by_perm, IH.
Qed.

Lemma insert_by_sorted {B : Type} (key : B -> K) (x : B) (l : list B) :
  StronglySorted (key_le leb key) l ->
  StronglySorted (key_le leb key) (insert_by leb key x l).
Proof.
  induction 1 as [|y l Hs IH Hy]; simpl.
  - repeat constructor.
  - destruct (leb (key x) (key y)) eqn:E.
    + constructor; [by constructor|].
      constructor; [done|].
      eapply Forall_impl; [exact Hy|]. intros z Hz. unfold key_le in *. eauto.
    + constructor; [done|].
      rewrite insert_by_perm. constructor; [|done].
      unfold key_le. destruct (leb_total (key x) (key y)); congruence.
Qed.

Lemma sort_values_sorted {B : Type} (key : B -> K) (l : list B) :
  StronglySorted (key_le leb key) (sort_values leb key l).
Proof.
  induction l as [|x l IH]; [constructor|].
  apply insert_by_sorted, IH.
Qed.

End SortFacts.

Section GroupFacts.
Context {A K : Type} `{EqDecision K}.
Variable leb : K -> K -> bool.

Lemma groupby_keys (key : A -> option K) (l : list A) :
  map fst (groupby leb key l) = sort_values leb id (remove_dups (omap key l)).
Proof.
  unfold groupby. rewrite map_map. simpl. apply map_id.
Qed.



Lemma groupby_key_elem (key : A -> option K) (l : list A) (k : K) :
  k ∈ map fst (groupby leb key l) <-> exists r, r ∈ l /\ key r = Some k.
Proof.
  rewrite groupby_keys, sort_values_perm, elem_of_remove_dups, list_elem_of_omap.
  done.
Qed.

Lemma groupby_elem (key : A -> option K) (l : list A) (g : K * list A) :
  g ∈ groupby leb key l ->
  g.2 = filter (fun r => key r = Some g.1) l /\ g.1 ∈ map fst (groupby leb key l).
Proof.
  intros Hg. split.
  - unfold groupby in Hg. apply list_elem_of_fmap in Hg as (k & -> & _). done.
  - apply list_elem_of_fmap. by exists g.
Qed.


End GroupFacts.

(** ** Order of strings *)

Lemma string_leb_trans (a b c : string) :
  String.leb a b = true -> String.leb b c = true -> String.leb a c = true.
Proof.
  intros Hab Hbc. apply Is_true_true_1.
  change (String.le a c). transitivity b; apply Is_true_true_2; done.
Qed.

Lemma string_leb_antisym (a b : string) :
  String.leb a b = true -> String.leb b a = true -> a = b.
Proof. apply String.leb_antisym. Qed.



Lemma pair_leb_total (a b : string * Z) :
  pair_leb String.leb Z.leb a b = true \/ pair_leb String.leb Z.leb b a = true.
Proof.
  unfold pair_leb. destruct (decide (a.1 = b.1)) as [E|E].
  - rewrite decide_True by done.
    destruct (Z.leb_spec a.2 b.2); [by left|right]. apply Z.leb_le. lia.
  - rewrite decide_False by done. apply String.leb_total.
Qed.

Lemma pair_leb_trans (a b c : string * Z) :
  pair_leb String.leb Z.leb a b = true ->
  pair_leb String.leb Z.leb b c = true ->
  pair_leb String.leb Z.leb a c = true.
Proof.
  unfold pair_leb.
  destruct (decide (a.1 = b.1)) as [Eab|Eab], (decide (b.1 = c.1)) as [Ebc|Ebc].
  - rewrite decide_True by congruence.
    intros ?%Z.leb_le ?%Z.leb_le. apply Z.leb_le. lia.
  - rewrite decide_False by congruence. by rewrite Eab.
  - rewrite decide_False by congruence. by rewrite Ebc.
  - intros Hab Hbc. destruct (decide (a.1 = c.1)) as [Eac|Eac].
    + exfalso. apply Eab. apply string_leb_antisym; [done|]. by rewrite Eac.
    + by apply (string_leb_trans _ b.1).
Qed.

(** ** Rationals and sums *)



Lemma Qc_scale_le (t : Qc) (d n : Z) :
  0 < n -> d <= n -> (0 <= t)%Qc ->
  (t * (Qc_of_Z d / Qc_of_Z n) <= t)%Qc.
Proof.
  intros Hn Hd Ht. unfold Qcle, Qcdiv, Qcinv in *. simpl in *.
  rewrite !Qred_correct.
  assert (Hf : (inject_Z d * / inject_Z n <= 1)%Q).
  { apply Qle_shift_div_r.
    - change 0%Q with (inject_Z 0). rewrite <- Zlt_Qlt. done.
    - rewrite Qmult_1_l. rewrite <- Zle_Qle. done. }
  revert Hf. generalize (inject_Z d * / inject_Z n)%Q. intros f Hf.
  destruct t as [x Hx]. simpl in *. change (Qred 0) with 0%Q in Ht. nra.
Qed.

Lemma Qc_scale_nonneg (t : Qc) (d n : Z) :
  0 < n -> 0 <= d -> (0 <= t)%Qc ->
  (0 <= t * (Qc_of_Z d / Qc_of_Z n))%Qc.
Proof.
  intros Hn Hd Ht. unfold Qcle, Qcdiv, Qcinv in *. simpl in *.
  rewrite !Qred_correct.
  assert (Hf : (0 <= inject_Z d * / inject_Z n)%Q).
  { apply Qle_shift_div_l.
    - change 0%Q with (inject_Z 0). rewrite <- Zlt_Qlt. done.
    - rewrite Qmult_0_l. change 0%Q with (inject_Z 0). rewrite <- Zle_Qle. done. }
  revert Hf. generalize (inject_Z d * / inject_Z n)%Q. intros f Hf.
  destruct t as [x Hx]. simpl in *. change (Qred 0) with 0%Q in *. nra.
Qed.

(** Summing a column that is zero outside the rows selected by [P] is
    summing the selected rows. *)
Lemma Series_sum_if_filter {A : Type} (P : A -> Prop) `{forall x, Decision (P x)}
    (f : A -> Qc) (l : list A) :
  Series_sum (map (fun r => if decide (P r) then f r else 0%Qc) l)
  = Series_sum (map f (filter P l)).
Proof.
  induction l as [|x l IH]; simpl; [done|].
  rewrite filter_cons. destruct (decide (P x)); simpl; rewrite IH.
  - done.
  - by rewrite Qcplus_0_l.
Qed.


(** ** Calendar *)

Lemma days_before_year_succ (y : Z) :
  Datetime.days_before_year (y + 1)
  = Datetime.days_before_year y + 365 + (if Datetime.is_leap y then 1 else 0).
Proof.
  unfold Datetime.days_before_year, Datetime.is_leap.
  replace (y + 1 - 1) with y by lia.
  destruct (Z.eqb_spec (y mod 4) 0), (Z.eqb_spec (y mod 100) 0),
    (Z.eqb_spec (y mod 400) 0); simpl; Z.div_mod_to_equations; lia.
Qed.

Lemma days_in_month_range (y m : Z) : 28 <= Datetime.days_in_month y m <= 31.
Proof.
  unfold Datetime.days_in_month.
  destruct (m =? 2); [destruct (Datetime.is_leap y); lia|].
  destruct (_ || _); lia.
Qed.

Lemma month_length (y m : Z) :
  1 <= m <= 12 ->
  (if m =? 12 then Datetime.ymd2ord (y + 1) 1 1 else Datetime.ymd2ord y (m + 1) 1)
  - Datetime.ymd2ord y m 1 = Datetime.days_in_month y m.
Proof.
  intros Hm.
  assert (Hcases : m = 1 \/ m = 2 \/ m = 3 \/ m = 4 \/ m = 5 \/ m = 6 \/ m = 7
                   \/ m = 8 \/ m = 9 \/ m = 10 \/ m = 11 \/ m = 12) by lia.
  unfold Datetime.ymd2ord, Datetime.days_before_month, Datetime.days_in_month.
  repeat destruct Hcases as [->|Hcases]; try subst m; simpl;
    try rewrite days_before_year_succ;
    unfold Datetime.DAYS_BEFORE_MONTH; simpl;
    destruct (Datetime.is_leap y); lia.
Qed.

Lemma sub_days_midnight (a b : Z) :
  Datetime.sub_days (Datetime.mk_datetime a 0) (Datetime.mk_datetime b 0) = a - b.
Proof.
  unfold Datetime.sub_days. simpl. Z.div_mod_to_equations. lia.
Qed.

Lemma make_first_Ok (y m : Z) :
  1 <= y <= 9999 -> 1 <= m <= 12 ->
  Datetime.make y m 1 = Ok (Datetime.mk_datetime (Datetime.ymd2ord y m 1) 0).
Proof.
  intros Hy Hm. unfold Datetime.make.
  pose proof (days_in_month_range y m).
  rewrite !(proj2 (Z.leb_le _ _)) by lia. done.
Qed.

(** ** The normalizer *)








Section NormalizerFacts.
Context `{Pandas}.

(** Whatever the cells are, a Type column that is not an object column
    makes the normalizer raise. *)
Lemma ensure_columns_Type_dtype (s : SessionState) (df : DataFrame) (dt : dtype) :
  dtypes df !! "Type" = Some dt -> dt <> object ->
  ensure_columns s df = Raise AttributeError.
Proof.
  intros Hdt Hne. unfold ensure_columns, str_accessor, column_dtype.
  rewrite Hdt. simpl. by rewrite decide_False.
Qed.

(** C5: the normalizer raises on an import whose Type column holds only
    numbers: [.str] refuses a column that is not of strings. *)
Lemma ensure_columns_numeric_type :
  ensure_columns (initial_state "2024-01") numeric_type_import
  = Raise AttributeError.
Proof. reflexivity. Qed.



End NormalizerFacts.


(** ** Monthly aggregation *)




(** ** Current month *)

(** C10: the current month is the Month of the last row of the
    transactions in insertion order, and the default month of the settings
    when there is no row; it need not be the greatest month present. *)
Theorem current_month_key_spec (s : SessionState) :
  current_month_key s [] = default_month (settings s)
  /\ (forall (df : list Row) (r : Row),
        current_month_key s (df ++ [r]) = Month r)
  /\ (exists (df : list Row) (r : Row),
        r ∈ df /\ String.ltb (current_month_key s df) (Month r) = true).
Proof.
  split; [done|split].
  - intros df r. unfold current_month_key. by rewrite last_snoc.
  - pose (mk := fun m => {| Month := m; Date := None; Category := "Rent";
        Type_ := Some "Expense"; Budget := 0%Qc; Actual := 0%Qc;
        Section := CStr "Needs" |}).
    exists [mk "2024-02"; mk "2024-01"], (mk "2024-02"). split.
    + left.
    + reflexivity.
Qed.

Section CurrentMonthFacts.
Context `{Pandas}.

(** The tabs take the current month from the last normalized row, and
    the category summary, the pace tracker and the guardrails work on the
    rows of that month. *)
Lemma budget_entries_tab_current_month (s : SessionState) (v : BudgetEntries) :
  budget_entries_tab s = Ok (Some v) ->
  exists (df : list Row) (r : Row),
    ensure_columns s (data s) = Ok (df ++ [r])
    /\ be_cm v = Month r
    /\ be_cat_sum v
       = cat_sum (to_dict (budgets s)) (month_rows (Month r) (df ++ [r])).
Proof.
  unfold budget_entries_tab.
  destruct (ensure_columns s (data s)) as [rows|]; simpl; [|done].
  destruct (decide (rows = [])) as [|Hne]; [done|].
  intros [= <-]. simpl.
  destruct (exists_last Hne) as (df & r & ->).
  exists df, r. unfold current_month_key. by rewrite last_snoc.
Qed.

Lemma analytics_tab_current_month (s : SessionState) (now : Datetime.datetime)
    (v : Analytics) :
  analytics_tab s now = Ok (Some v) ->
  exists (df : list Row) (r : Row),
    ensure_columns s (data s) = Ok (df ++ [r])
    /\ an_cm v = Month r
    /\ an_exp_only v
       = exp_only (to_dict (budgets s)) (month_rows (Month r) (df ++ [r]))
    /\ pace (Month r) now (an_exp_only v) = Ok (an_pace v)
    /\ an_alerts v
       = guardrails (settings s) (monthly_budget_total (an_pace v))
           (today_in_month (an_pace v)) (spent_to_date (an_pace v))
           (an_exp_only v).
Proof.
  unfold analytics_tab.
  destruct (ensure_columns s (data s)) as [rows|]; simpl; [|done].
  destruct (decide (rows = [])) as [|Hne]; [done|].
  destruct (rolling_average rows) as [roll|]; simpl; [|done].
  destruct (pace _ _ _) as [p|] eqn:Hp; simpl; [|done].
  intros [= <-]. simpl.
  destruct (exists_last Hne) as (df & r & ->).
  exists df, r. unfold current_month_key in *. rewrite last_snoc in *. done.
Qed.

End CurrentMonthFacts.

(** The Analytics tab on the sample import, on 2024-01-20: the current
    month is that of the last row, here the default month of a row without
    one. *)
Lemma analytics_tab_sample :
  exists v : Analytics,
    @analytics_tab sample_pandas
      {| data := sample_import; categories := initial_categories;
         budgets := []; settings := sample_settings |}
      (Datetime.mk_datetime (Datetime.ymd2ord 2024 1 20) 0) = Ok (Some v)
    /\ an_cm v = "2024-01"
    /\ today_in_month (an_pace v) = 20
    /\ an_alerts v = [].
Proof. eexists. split; [vm_compute; reflexivity|]. done. Qed.

(** ** Per-category summaries *)










(** ** Rolling average *)

Lemma last_points_snoc (x : Qc) (pre : list Qc) :
  (if Nat.ltb 3 (length (last_points 3 pre ++ [x]))
   then tail (last_points 3 pre ++ [x]) else last_points 3 pre ++ [x])
  = last_points 3 (pre ++ [x]).
Proof.
  unfold last_points. rewrite !length_app, length_drop. simpl.
  destruct (Nat.ltb_spec 3 (length pre - (length pre - 3) + 1)) as [Hlt|Hge].
  - replace (length pre + 1 - 3)%nat with (length pre - 3 + 1)%nat by lia.
    rewrite drop_app_le by lia.
    rewrite <- (drop_drop pre 1 (length pre - 3)).
    destruct (drop (length pre - 3) pre) as [|y w] eqn:E; [|done].
    apply (f_equal length) in E. rewrite length_drop in E. simpl in E. lia.
  - replace (length pre + 1 - 3)%nat with 0%nat by lia.
    replace (length pre - 3)%nat with 0%nat by lia. done.
Qed.

Lemma last_points_snoc_length (x : Qc) (pre : list Qc) :
  Nat.leb 1 (length (last_points 3 (pre ++ [x]))) = true.
Proof.
  apply Nat.leb_le. unfold last_points.
  rewrite length_drop, length_app. simpl. lia.
Qed.

Lemma rolling_go_lookup (xs pre : list Qc) (i : nat) :
  (i < length xs)%nat ->
  rolling_go 3 1 (last_points 3 pre) xs !! i
  = Some (Some (mean (last_points 3 (pre ++ take (S i) xs)))).
Proof.
  revert pre i. induction xs as [|x xs IH]; intros pre i Hi; simpl in Hi; [lia|].
  cbn [rolling_go]. rewrite last_points_snoc, last_points_snoc_length.
  destruct i as [|i].
  - done.
  - change ((?a :: ?l) !! S i) with (l !! i).
    rewrite IH by lia. by rewrite <- app_assoc.
Qed.

Lemma rolling_go_length (window min_periods : nat) (w xs : list Qc) :
  length (rolling_go window min_periods w xs) = length xs.
Proof.
  revert w. induction xs as [|x xs IH]; intros w; simpl; [done|].
  by rewrite IH.
Qed.

(** The rolling mean with a window of 3 and [min_periods=1], point by
    point. *)
Lemma rolling_mean_lookup (xs : list Qc) (k : nat) :
  (1 <= k <= length xs)%nat ->
  rolling_mean 3 1 xs !! (k - 1)%nat
  = Some (Some (mean (drop (k - Nat.min 3 k) (take k xs)))).
Proof.
  intros Hk. unfold rolling_mean.
  change (@nil Qc) with (last_points 3 (@nil Qc)).
  rewrite rolling_go_lookup by lia. rewrite app_nil_l.
  replace (S (k - 1)) with k by lia.
  unfold last_points. rewrite length_take_le by lia.
  do 4 f_equal. lia.
Qed.

Lemma category_series_app (l1 l2 : list (string * Z * Qc)) (cat : string) :
  category_series (l1 ++ l2) cat = category_series l1 cat ++ category_series l2 cat.
Proof. apply filter_app. Qed.

Lemma assign_Roll3_from (whole : list (string * Z * Qc)) (cat : string)
    (suf pre : list (string * Z * Qc)) :
  whole = pre ++ suf ->
  filter (fun r => roll_Category r = cat)
    (imap (fun i x =>
             {| roll_Month := x.1.2;
                roll_Category := x.1.1;
                roll_Actual := x.2;
                Roll3 :=
                  mjoin (rolling_mean 3 1 (map snd (category_series whole x.1.1))
                         !! length (category_series
                                      (take (length pre + i) whole) x.1.1)) |})
          suf)
  = imap (fun j x =>
            {| roll_Month := x.1.2;
               roll_Category := x.1.1;
               roll_Actual := x.2;
               Roll3 :=
                 mjoin (rolling_mean 3 1 (map snd (category_series whole cat))
                        !! (length (category_series pre cat) + j)%nat) |})
         (category_series suf cat).
Proof.
  revert pre. induction suf as [|x suf IH]; intros pre Hwhole; [done|].
  rewrite imap_cons.
  assert (Htail : whole = (pre ++ [x]) ++ suf) by (by rewrite <- app_assoc).
  specialize (IH (pre ++ [x]) Htail).
  rewrite (imap_ext _ (fun i x0 =>
     {| roll_Month := x0.1.2;
        roll_Category := x0.1.1;
        roll_Actual := x0.2;
        Roll3 :=
          mjoin (rolling_mean 3 1 (map snd (category_series whole x0.1.1))
                 !! length (category_series
                              (take (length (pre ++ [x]) + i) whole) x0.1.1)) |}));
    [|intros i y _; simpl; rewrite length_app; simpl;
      by replace (length pre + 1 + i)%nat with (length pre + S i)%nat by lia].
  destruct (decide (x.1.1 = cat)) as [Hx|Hx].
  - rewrite (filter_cons_True (fun r => roll_Category r = cat)) by done.
    replace (category_series (x :: suf) cat) with (x :: category_series suf cat)
      by (unfold category_series; by rewrite filter_cons_True).
    rewrite imap_cons. f_equal.
    + rewrite Hx, !Nat.add_0_r, Hwhole, take_app_length. done.
    + rewrite IH. apply imap_ext. intros j y _. simpl.
      rewrite category_series_app, length_app.
      replace (category_series [x] cat) with [x]
        by (unfold category_series; by rewrite filter_cons_True).
      simpl. do 3 f_equal. lia.
  - rewrite (filter_cons_False (fun r => roll_Category r = cat)) by done.
    replace (category_series (x :: suf) cat) with (category_series suf cat)
      by (unfold category_series; by rewrite filter_cons_False).
    rewrite IH. apply imap_ext. intros j y _. simpl.
    rewrite category_series_app, length_app.
    replace (category_series [x] cat) with (@nil (string * Z * Qc))
      by (unfold category_series; by rewrite filter_cons_False).
    simpl. do 3 f_equal. lia.
Qed.

Lemma roll_sub_assign_Roll3 (roll : list (string * Z * Qc)) (cat : string) :
  roll_sub cat (assign_Roll3 roll)
  = imap (fun j x =>
            {| roll_Month := x.1.2;
               roll_Category := x.1.1;
               roll_Actual := x.2;
               Roll3 :=
                 mjoin (rolling_mean 3 1 (map snd (category_series roll cat))
                        !! j) |})
         (category_series roll cat).
Proof.
  unfold roll_sub, assign_Roll3.
  exact (assign_Roll3_from roll cat roll [] eq_refl).
Qed.

Lemma roll_sub_Month (roll : list (string * Z * Qc)) (cat : string) :
  map roll_Month (roll_sub cat (assign_Roll3 roll))
  = map (fun x => x.1.2) (category_series roll cat).
Proof.
  rewrite roll_sub_assign_Roll3. apply list_eq. intros i.
  rewrite !list_lookup_fmap, list_lookup_imap.
  by destruct (category_series roll cat !! i).
Qed.

Lemma roll_sub_Actual (roll : list (string * Z * Qc)) (cat : string) :
  map roll_Actual (roll_sub cat (assign_Roll3 roll))
  = map snd (category_series roll cat).
Proof.
  rewrite roll_sub_assign_Roll3. apply list_eq. intros i.
  rewrite !list_lookup_fmap, list_lookup_imap.
  by destruct (category_series roll cat !! i).
Qed.

Lemma roll_sub_Roll3 (roll : list (string * Z * Qc)) (cat : string) :
  map Roll3 (roll_sub cat (assign_Roll3 roll))
  = rolling_mean 3 1 (map roll_Actual (roll_sub cat (assign_Roll3 roll))).
Proof.
  rewrite roll_sub_Actual, roll_sub_assign_Roll3. apply list_eq. intros i.
  rewrite list_lookup_fmap, list_lookup_imap.
  destruct (category_series roll cat !! i) as [x|] eqn:E; simpl.
  - destruct (rolling_mean 3 1 (map snd (category_series roll cat)) !! i)
      as [o|] eqn:E'; [done|].
    apply lookup_ge_None in E'. apply lookup_lt_Some in E.
    unfold rolling_mean in E'. rewrite rolling_go_length, length_map in E'. lia.
  - symmetry. apply lookup_ge_None. apply lookup_ge_None in E.
    unfold rolling_mean. by rewrite rolling_go_length, length_map.
Qed.

Section RollingFacts.
Context `{Pandas}.

Lemma rolling_average_Ok (data : list Row) (roll : list RollRow) :
  rolling_average data = Ok (Some roll) ->
  exists sorted : list (string * Z * Qc),
    roll = assign_Roll3 sorted
    /\ StronglySorted (key_le (pair_leb String.leb Z.leb) fst) sorted.
Proof.
  unfold rolling_average. destruct (decide _); [done|].
  destruct (mapM _ _) as [dated|]; simpl; [|done].
  intros [= <-]. eexists. split; [done|].
  apply sort_values_sorted.
  - apply pair_leb_total.
  - apply pair_leb_trans.
Qed.

(** C8: for a tracked category, the rows of the rolling-average table are
    in chronological order, and the 3-month rolling average at position k
    (counted from 1) is defined and is the arithmetic mean of the last
    min(3, k) of the first k monthly totals of the category. *)
Theorem rolling_average_spec (data : list Row) (roll : list RollRow)
    (cat : string) (k : nat) :
  rolling_average data = Ok (Some roll) ->
  (1 <= k <= length (roll_sub cat roll))%nat ->
  StronglySorted Z.le (map roll_Month (roll_sub cat roll))
  /\ map Roll3 (roll_sub cat roll) !! (k - 1)%nat
     = Some (Some (mean (drop (k - Nat.min 3 k)
                           (take k (map roll_Actual (roll_sub cat roll)))))).
Proof.
  intros (sorted & -> & Hsorted)%rolling_average_Ok Hk. split.
  - rewrite roll_sub_Month.
    unfold category_series.
    eapply StronglySorted_map_filter; [|exact Hsorted].
    intros a b Ha Hb. unfold key_le, pair_leb. simpl.
    rewrite decide_True by congruence. apply Z.leb_le.
  - rewrite roll_sub_Roll3. apply rolling_mean_lookup.
    by rewrite length_map.
Qed.

End RollingFacts.

(** Clothing over four months: totals 60, 50, 10, 100 and rolling
    averages 60, 55, ..., 160/3. *)
Lemma rolling_average_witness :
  exists roll : list RollRow,
    @rolling_average sample_pandas sample_clothing = Ok (Some roll)
    /\ map (fun r => this (roll_Actual r)) (roll_sub "Clothing" roll)
       = [60; 50; 10; 100]%Q
    /\ StronglySorted Z.le (map roll_Month (roll_sub "Clothing" roll))
    /\ map Roll3 (roll_sub "Clothing" roll) !! 0%nat = Some (Some (Q2Qc 60))
    /\ map Roll3 (roll_sub "Clothing" roll) !! 1%nat = Some (Some (Q2Qc 55))
    /\ map Roll3 (roll_sub "Clothing" roll) !! 3%nat
       = Some (Some (Q2Qc (160 # 3))).
Proof.
  eexists. split; [vm_compute; reflexivity|].
  match goal with |- context [roll_sub _ ?r] => set (roll := r) end.
  assert (Hroll : @rolling_average sample_pandas sample_clothing
                  = Ok (Some roll)) by (vm_compute; reflexivity).
  assert (Hlen : length (roll_sub "Clothing" roll) = 4%nat) by reflexivity.
  destruct (@rolling_average_spec sample_pandas _ _ "Clothing" 1%nat Hroll)
    as [Hs H1]; [lia|].
  destruct (@rolling_average_spec sample_pandas _ _ "Clothing" 2%nat Hroll)
    as [_ H2]; [lia|].
  destruct (@rolling_average_spec sample_pandas _ _ "Clothing" 4%nat Hroll)
    as [_ H4]; [lia|].
  split; [by vm_compute|]. split; [exact Hs|].
  change (4 - 1)%nat with 3%nat in H4. change (2 - 1)%nat with 1%nat in H2.
  change (1 - 1)%nat with 0%nat in H1.
  rewrite H1, H2, H4.
  repeat split; do 2 f_equal; by apply Qc_is_canon.
Defined.

(** ** Pace tracker *)

(** C4: for a month that the tracker accepts and any current date, the
    day of the month is min(elapsed days since the month start + 1, days
    in the month) and the expected spend is total budget * day / days in
    the month; with a non-negative total budget it never exceeds the total
    budget, and it is non-negative when the current date is not earlier
    than the day before the month starts.  A 30-day month on day 15 with a
    total budget of 300 gives exactly 150. *)
Theorem pace_spec (cm : string) (now : Datetime.datetime)
    (eo : list ExpenseSummary) (year mon : Z) :
  year_mon cm = Ok (year, mon) ->
  1 <= year <= 9999 -> 1 <= mon <= 12 -> (mon = 12 -> year < 9999) ->
  exists (start : Datetime.datetime) (p : Pace),
    Datetime.make year mon 1 = Ok start
    /\ pace cm now eo = Ok p
    /\ days_in_month p = Datetime.days_in_month year mon
    /\ today_in_month p
       = Z.min (Datetime.sub_days now start + 1) (days_in_month p)
    /\ expected_spend_to_date p
       = (monthly_budget_total p
          * (Qc_of_Z (today_in_month p) / Qc_of_Z (days_in_month p)))%Qc
    /\ ((0 <= monthly_budget_total p)%Qc ->
        (expected_spend_to_date p <= monthly_budget_total p)%Qc)
    /\ ((0 <= monthly_budget_total p)%Qc ->
        0 <= Datetime.sub_days now start + 1 ->
        (0 <= expected_spend_to_date p)%Qc)
    /\ (days_in_month p = 30 -> today_in_month p = 15 ->
        monthly_budget_total p = Q2Qc 300 ->
        expected_spend_to_date p = Q2Qc 150).
Proof.
  intros Hcm Hy Hm Hdec.
  pose proof (days_in_month_range year mon) as Hrange.
  pose proof (month_length year mon Hm) as Hlen.
  assert (Hend : (if mon =? 12 then Datetime.make (year + 1) 1 1
                  else Datetime.make year (mon + 1) 1)
                 = Ok (Datetime.mk_datetime
                         (if mon =? 12 then Datetime.ymd2ord (year + 1) 1 1
                          else Datetime.ymd2ord year (mon + 1) 1) 0)).
  { destruct (Z.eqb_spec mon 12) as [->|Hne].
    - apply make_first_Ok; lia.
    - apply make_first_Ok; lia. }
  eexists _, _. split; [by apply make_first_Ok|].
  unfold pace. rewrite Hcm. simpl. rewrite (make_first_Ok year mon) by done. simpl.
  rewrite Hend. simpl. rewrite sub_days_midnight, Hlen.
  split; [reflexivity|]. simpl.
  split; [reflexivity|]. split; [reflexivity|].
  destruct (Z.eqb_spec (Datetime.days_in_month year mon) 0) as [E|_]; [lia|].
  split; [reflexivity|]. split; [|split].
  - intros Ht. apply Qc_scale_le; [lia|lia|done].
  - intros Ht Hd. apply Qc_scale_nonneg; [lia|lia|done].
  - intros -> -> ->. by apply Qc_is_canon.
Qed.

(** For a month that has not started the day of the month is negative,
    and so is the expected spend: on 2024-01-15 the month 2024-03 with a
    budget of 310 gives day -45 and an expected spend of -450. *)
Lemma pace_future_month_negative :
  exists p : Pace,
    pace "2024-03" (Datetime.mk_datetime (Datetime.ymd2ord 2024 1 15) 43200)
      (sample_expenses 310) = Ok p
    /\ today_in_month p = -45
    /\ (0 <= monthly_budget_total p)%Qc
    /\ (expected_spend_to_date p < 0)%Qc.
Proof.
  eexists. split; [vm_compute; reflexivity|]. simpl.
  split; [reflexivity|]. split; by vm_compute.
Qed.

(** The pace of April 2024 on its 15th day with a budget of 300. *)
Lemma pace_spec_witness :
  exists p : Pace,
    pace "2024-04" (Datetime.mk_datetime (Datetime.ymd2ord 2024 4 15) 43200)
      (sample_expenses 300) = Ok p
    /\ days_in_month p = 30
    /\ today_in_month p = 15
    /\ monthly_budget_total p = Q2Qc 300
    /\ expected_spend_to_date p = Q2Qc 150.
Proof.
  destruct (pace_spec "2024-04"
              (Datetime.mk_datetime (Datetime.ymd2ord 2024 4 15) 43200)
              (sample_expenses 300) 2024 4)
    as (start & p & Hstart & Hp & Hdim & Htoday & _ & _ & _ & H150);
    [reflexivity|lia|lia|lia|].
  injection Hstart as <-.
  assert (Hd : days_in_month p = 30) by (rewrite Hdim; reflexivity).
  assert (Ht : today_in_month p = 15) by (rewrite Htoday, Hd; reflexivity).
  assert (Hb : monthly_budget_total p = Q2Qc 300).
  { vm_compute in Hp. injection Hp as <-. by apply Qc_is_canon. }
  exists p. repeat split; try done. by apply H150.
Defined.

(** ** Guardrails *)






(** The policy examples: a budget of 1000 on day 19 alerts at a spend of
    801 and not at 800, and day 20 never alerts. *)
Lemma burn_alert_examples :
  guardrails sample_settings (Qc_of_Z 1000) 19 (Qc_of_Z 801) [] = [BudgetBurn]
  /\ guardrails sample_settings (Qc_of_Z 1000) 19 (Qc_of_Z 800) [] = []
  /\ guardrails sample_settings (Qc_of_Z 1000) 20 (Qc_of_Z 5000) [] = [].
Proof. repeat split. Qed.



(** ** Category catalog upload *)




(** * Further properties *)

(** ** Dictionaries *)

Lemma to_dict_lookup_from {V : Type} (m : gmap string V) (l : list (string * V))
    (k : string) :
  foldl (fun m kv => <[kv.1 := kv.2]> m) m l !! k
  = match last (filter (fun kv => kv.1 = k) l) with
    | Some kv => Some kv.2
    | None => m !! k
    end.
Proof.
  revert m. induction l as [|[k' v] l IH]; intros m; simpl; [done|].
  rewrite IH, filter_cons. simpl. destruct (decide (k' = k)) as [->|Hne].
  - rewrite last_cons. destruct (last (filter _ l)); [done|].
    by rewrite lookup_insert_eq.
  - destruct (last (filter _ l)); [done|]. by rewrite lookup_insert_ne.
Qed.

(** The entry of a key in [to_dict]: the value of the last pair with
    that key. *)
Lemma to_dict_lookup {V : Type} (l : list (string * V)) (k : string) :
  to_dict l !! k = snd <$> last (filter (fun kv => kv.1 = k) l).
Proof.
  unfold to_dict. rewrite to_dict_lookup_from.
  by destruct (last _).
Qed.


(** ** The normalizer: what every row of the result satisfies *)


Section NormalizedRows.
Context `{Pandas}.


End NormalizedRows.


(** ** Sums over groups *)


Lemma Series_sum_plus {A : Type} (f g : A -> Qc) (l : list A) :
  Series_sum (map (fun x => f x + g x)%Qc l)
  = (Series_sum (map f l) + Series_sum (map g l))%Qc.
Proof.
  induction l as [|x l IH]; simpl; [ring|]. rewrite IH. ring.
Qed.

Lemma Series_sum_zero {A : Type} (l : list A) :
  Series_sum (map (fun _ => 0%Qc) l) = 0%Qc.
Proof. induction l as [|x l IH]; simpl; [done|]. rewrite IH. ring. Qed.

Lemma filter_eq_NoDup {K : Type} `{EqDecision K} (k : K) (ks : list K) :
  NoDup ks -> k ∈ ks -> filter (fun x => x = k) ks = [k].
Proof.
  induction ks as [|x ks IH]; intros Hnd Hin; [by apply elem_of_nil in Hin|].
  apply NoDup_cons in Hnd as [Hx Hnd].
  destruct (decide (x = k)) as [->|Hne].
  - rewrite filter_cons_True by done. f_equal.
    apply filter_none. intros y Hy ->. done.
  - rewrite filter_cons_False by done. apply IH; [done|].
    apply elem_of_cons in Hin as [->|Hin]; done.
Qed.

Section GroupSums.
Context {A K : Type} `{EqDecision K}.

(** The groups of a list partition its rows with a key: the sums of the
    groups add up to the sum over those rows. *)
Lemma group_sums_total (key : A -> option K) (f : A -> Qc) (l : list A)
    (ks : list K) :
  NoDup ks ->
  (forall r k, r ∈ l -> key r = Some k -> k ∈ ks) ->
  Series_sum (map (fun k => Series_sum
                    (map f (filter (fun r => key r = Some k) l))) ks)
  = Series_sum (map f (filter (fun r => is_Some (key r)) l)).
Proof.
  intros Hnd. induction l as [|r l IH]; intros Hks.
  - simpl. apply Series_sum_zero.
  - rewrite (map_ext _ (fun k =>
      (if decide (key r = Some k) then f r else 0)
      + Series_sum (map f (filter (fun r0 => key r0 = Some k) l)))%Qc).
    2: { intros k. rewrite filter_cons.
         destruct (decide (key r = Some k)); simpl; ring. }
    rewrite Series_sum_plus, IH by (intros r' k Hr'; apply Hks; by right).
    rewrite filter_cons. destruct (key r) as [k0|] eqn:Ek.
    + rewrite decide_True by done. simpl. f_equal.
      rewrite (Series_sum_if_filter (fun k => Some k0 = Some k) (fun _ => f r)).
      rewrite (list_filter_iff _ (fun k => k = k0))
        by (intros k; split; congruence).
      rewrite filter_eq_NoDup; [simpl; ring|done|].
      apply (Hks r); [left|done].
    + rewrite decide_False by (by intros [? ?]).
      rewrite (Series_sum_if_filter (fun k => None = Some k) (fun _ => f r)).
      rewrite filter_none by done. simpl. ring.
Qed.

Lemma groupby_sums_total (leb : K -> K -> bool) (key : A -> option K)
    (f : A -> Qc) (l : list A) :
  Series_sum (map (fun g => Series_sum (map f g.2)) (groupby leb key l))
  = Series_sum (map f (filter (fun r => is_Some (key r)) l)).
Proof.
  unfold groupby. rewrite map_map. simpl.
  apply group_sums_total.
  - rewrite sort_values_perm. apply NoDup_remove_dups.
  - intros r k Hr Hk. rewrite sort_values_perm, elem_of_remove_dups.
    apply list_elem_of_omap. eauto.
Qed.

End GroupSums.

Lemma filter_all {A : Type} (P : A -> Prop) `{forall x, Decision (P x)}
    (l : list A) :
  (forall x, x ∈ l -> P x) -> filter P l = l.
Proof.
  induction l as [|x l IH]; intros Hl; [done|].
  rewrite filter_cons_True by (apply Hl; left).
  f_equal. apply IH. intros y Hy. apply Hl. by right.
Qed.

(** ** Monthly aggregation: totals and row order *)









(** ** The two tabs on the same month *)



Lemma exp_only_Budget_total (bmap : gmap string Qc) (dfm : list Row) :
  Series_sum (map es_Budget (exp_only bmap dfm))
  = Series_sum (map (fun r => default (Budget r) (bmap !! Category r))
                  (filter (fun r => Type_ r = Some "Expense") dfm)).
Proof.
  unfold exp_only. rewrite map_map. simpl.
  rewrite (groupby_sums_total String.leb _ Budget).
  rewrite filter_all by (intros r _; by eexists).
  by rewrite filter_map, map_map.
Qed.


Section TabsFacts.
Context `{Pandas}.


End TabsFacts.


(** ** Savings rate *)





(** ** When the pace tracker can be computed *)


Lemma make_Ok (y m d : Z) :
  1 <= y <= 9999 -> 1 <= m <= 12 -> 1 <= d <= Datetime.days_in_month y m ->
  Datetime.make y m d = Ok (Datetime.mk_datetime (Datetime.ymd2ord y m d) 0).
Proof.
  intros Hy Hm Hd. unfold Datetime.make.
  rewrite !(proj2 (Z.leb_le _ _)) by lia. done.
Qed.

Lemma pace_unfold (cm : string) (now : Datetime.datetime)
    (eo : list ExpenseSummary) (year mon : Z) :
  year_mon cm = Ok (year, mon) ->
  1 <= year <= 9999 -> 1 <= mon <= 12 -> (mon = 12 -> year < 9999) ->
  exists p : Pace,
    pace cm now eo = Ok p
    /\ days_in_month p = Datetime.days_in_month year mon
    /\ today_in_month p
       = Z.min (Datetime.sub_days now
                  (Datetime.mk_datetime (Datetime.ymd2ord year mon 1) 0) + 1)
               (Datetime.days_in_month year mon)
    /\ monthly_budget_total p = Series_sum (map es_Budget eo)
    /\ expected_spend_to_date p
       = (monthly_budget_total p
          * (Qc_of_Z (today_in_month p) / Qc_of_Z (days_in_month p)))%Qc.
Proof.
  intros Hcm Hy Hm Hdec.
  pose proof (days_in_month_range year mon) as Hrange.
  pose proof (month_length year mon Hm) as Hlen.
  assert (Hend : (if mon =? 12 then Datetime.make (year + 1) 1 1
                  else Datetime.make year (mon + 1) 1)
                 = Ok (Datetime.mk_datetime
                         (if mon =? 12 then Datetime.ymd2ord (year + 1) 1 1
                          else Datetime.ymd2ord year (mon + 1) 1) 0)).
  { destruct (Z.eqb_spec mon 12) as [->|Hne].
    - apply make_first_Ok; lia.
    - apply make_first_Ok; lia. }
  eexists. unfold pace. rewrite Hcm. simpl.
  rewrite (make_first_Ok year mon) by done. simpl.
  rewrite Hend. simpl. rewrite sub_days_midnight, Hlen.
  split; [reflexivity|]. simpl.
  split; [reflexivity|]. split; [reflexivity|].
  split; [by destruct (decide (eo = [])) as [->|]|].
  destruct (Z.eqb_spec (Datetime.days_in_month year mon) 0) as [E|_]; [lia|].
  reflexivity.
Qed.



(** The text must be a year and a month around one hyphen. *)
Lemma pace_raises_examples :
  pace "nan" (Datetime.mk_datetime (Datetime.ymd2ord 2024 1 15) 0) []
  = Raise ValueError
  /\ pace "2024-13" (Datetime.mk_datetime (Datetime.ymd2ord 2024 1 15) 0) []
     = Raise ValueError
  /\ pace "2024-0" (Datetime.mk_datetime (Datetime.ymd2ord 2024 1 15) 0) []
     = Raise ValueError
  /\ pace "9999-12" (Datetime.mk_datetime (Datetime.ymd2ord 2024 1 15) 0) []
     = Raise ValueError
  /\ pace "2024-01-05" (Datetime.mk_datetime (Datetime.ymd2ord 2024 1 15) 0) []
     = Raise ValueError.
Proof. repeat split; vm_compute; reflexivity. Qed.

(** ** The day of the month *)

Lemma sub_days_same_month (a b s : Z) :
  0 <= s < 86400 ->
  Datetime.sub_days (Datetime.mk_datetime a s) (Datetime.mk_datetime b 0)
  = a - b.
Proof.
  intros Hs. unfold Datetime.sub_days. simpl. Z.div_mod_to_equations. lia.
Qed.

Lemma Qc_of_Z_nonzero (z : Z) : 0 < z -> Qc_of_Z z <> 0%Qc.
Proof.
  intros Hz Heq. apply (f_equal this) in Heq. revert Heq.
  unfold Qc_of_Z. simpl. intros Heq.
  assert (Hq : (Qred (inject_Z z) == 0)%Q) by (by rewrite Heq).
  rewrite Qred_correct in Hq. unfold Qeq, inject_Z in Hq. simpl in Hq. lia.
Qed.

(** X7: on day [d] of the current month, at any time of the day, the
    pace tracker counts [d] days; from the last day of the month on it
    counts the whole month, and the expected spend is the whole budget. *)
Theorem pace_day_of_month (cm : string) (now : Datetime.datetime)
    (eo : list ExpenseSummary) (year mon : Z) :
  year_mon cm = Ok (year, mon) ->
  1 <= year <= 9999 -> 1 <= mon <= 12 -> (mon = 12 -> year < 9999) ->
  0 <= Datetime.second now < 86400 ->
  exists p : Pace,
    pace cm now eo = Ok p
    /\ (forall day : Z,
          1 <= day <= Datetime.days_in_month year mon ->
          Datetime.ordinal now = Datetime.ymd2ord year mon day ->
          today_in_month p = day)
    /\ (Datetime.ymd2ord year mon (Datetime.days_in_month year mon)
        <= Datetime.ordinal now ->
        today_in_month p = days_in_month p
        /\ expected_spend_to_date p = monthly_budget_total p).
Proof.
  intros Hcm Hy Hm Hdec Hs.
  destruct (pace_unfold cm now eo year mon)
    as (p & Hp & Hdim & Htoday & _ & Hexp); try done.
  exists p. split; [done|].
  destruct now as [o s]. simpl in *.
  rewrite sub_days_same_month in Htoday by done.
  pose proof (days_in_month_range year mon) as Hrange.
  unfold Datetime.ymd2ord in *.
  split.
  - intros day Hday Ho. rewrite Htoday. lia.
  - intros Ho.
    assert (Ht : today_in_month p = days_in_month p) by (rewrite Htoday; lia).
    split; [done|]. rewrite Hexp, Ht. field.
    apply Qc_of_Z_nonzero. lia.
Qed.

Lemma pace_day_of_month_witness :
  exists p : Pace,
    pace "2024-02" (Datetime.mk_datetime (Datetime.ymd2ord 2024 2 29) 86399)
      (sample_expenses 290) = Ok p
    /\ today_in_month p = 29
    /\ expected_spend_to_date p = monthly_budget_total p.
Proof.
  destruct (pace_day_of_month "2024-02"
              (Datetime.mk_datetime (Datetime.ymd2ord 2024 2 29) 86399)
              (sample_expenses 290) 2024 2)
    as (p & Hp & Hday & Hend); [reflexivity|lia|lia|lia|simpl; lia|].
  exists p. split; [done|]. split.
  - apply Hday; [by vm_compute|reflexivity].
  - apply Hend. by vm_compute.
Defined.

(** ** When the rolling-average block can be computed *)

Section RollingErrors.
Context `{Pandas}.

Lemma mapM_Raise {A B : Type} (f : A -> result B) (l : list A) (e : exn) :
  mapM f l = Raise e -> exists x, x ∈ l /\ f x = Raise e.
Proof.
  induction l as [|x l IH]; simpl; [done|].
  destruct (f x) as [y|e'] eqn:Hx; simpl.
  - destruct (mapM f l) as [ys|e'']; simpl; [done|].
    intros [= ->]. destruct IH as (x' & Hin & Hx'); [done|].
    exists x'. split; [by right|done].
  - intros [= ->]. exists x. split; [by left|done].
Qed.

Lemma mapM_Ok {A B : Type} (f : A -> result B) (l : list A) (ys : list B) :
  mapM f l = Ok ys -> forall x, x ∈ l -> exists y, f x = Ok y.
Proof.
  revert ys. induction l as [|x l IH]; intros ys; simpl.
  - by intros _ x ?%elem_of_nil.
  - destruct (f x) as [y|e'] eqn:Hx; simpl; [|done].
    destruct (mapM f l) as [ys'|e'']; simpl; [|done].
    intros _ x' [->|Hin]%elem_of_cons; [by exists y|]. by eapply IH.
Qed.

Lemma rolling_average_cases (data : list Row) :
  (rolling_average data = Ok None <->
     forall r, r ∈ data ->
       ~ (Type_ r = Some "Expense" /\ Category r ∈ keycats))
  /\ (forall e, rolling_average data = Raise e <->
        e = ValueError
        /\ exists r, r ∈ data
             /\ (Type_ r = Some "Expense" /\ Category r ∈ keycats)
             /\ to_datetime_scalar (CStr (Month r +:+ "-01")) = None).
Proof.
  set (tracked := fun r : Row =>
                    Type_ r = Some "Expense" /\ Category r ∈ keycats).
  unfold rolling_average.
  set (dfk := filter _ data).
  assert (Hdfk : forall r, r ∈ dfk <-> r ∈ data /\ tracked r).
  { intros r. unfold dfk. rewrite list_elem_of_filter. unfold tracked. tauto. }
  set (roll := map _ (groupby _ _ dfk)).
  assert (Hroll : forall m, (exists x, x ∈ roll /\ x.1.1 = m)
                            <-> exists r, r ∈ dfk /\ Month r = m).
  { intros m. split.
    - intros (x & Hx & <-). unfold roll in Hx.
      apply list_elem_of_fmap in Hx as (g & -> & Hg). simpl.
      apply groupby_elem in Hg as [_ Hk].
      apply groupby_key_elem in Hk as (r & Hr & [= Hkey]).
      exists r. split; [done|]. by rewrite <- Hkey.
    - intros (r & Hr & <-).
      assert (Hk : (Month r, Category r)
                   ∈ map fst (groupby (pair_leb String.leb String.leb)
                                (fun r => Some (Month r, Category r)) dfk)).
      { apply groupby_key_elem. by exists r. }
      apply list_elem_of_fmap in Hk as (g & Hg1 & Hg).
      exists (g.1, Series_sum (map Actual g.2)). split.
      + unfold roll. apply list_elem_of_fmap. by exists g.
      + simpl. by rewrite <- Hg1. }
  split.
  - destruct (decide (dfk = [])) as [Hnil|Hne].
    + split; [|done]. intros _ r Hr Ht.
      assert (Hin : r ∈ dfk) by (by apply Hdfk).
      rewrite Hnil in Hin. by apply elem_of_nil in Hin.
    + split.
      * destruct (mapM _ roll); simpl; done.
      * intros Hnone. exfalso. apply Hne.
        apply filter_none. intros r Hr. by apply Hnone.
  - intros e. destruct (decide (dfk = [])) as [Hnil|Hne].
    { split; [done|]. intros (_ & r & Hr & Ht & _).
      assert (Hin : r ∈ dfk) by (by apply Hdfk).
      rewrite Hnil in Hin. by apply elem_of_nil in Hin. }
    destruct (mapM _ roll) as [dated|e'] eqn:Hm; simpl.
    + split; [done|]. intros (_ & r & Hr & Ht & Hbad). exfalso.
      destruct (proj2 (Hroll (Month r))) as (x & Hx & Hxm).
      { exists r. split; [by apply Hdfk|done]. }
      destruct (mapM_Ok _ _ _ Hm x Hx) as (y & Hy).
      unfold to_datetime_raise in Hy. rewrite Hxm, Hbad in Hy. done.
    + apply mapM_Raise in Hm as (x & Hx & Hfx).
      unfold to_datetime_raise in Hfx.
      destruct (to_datetime_scalar _) as [t|] eqn:Ht; simpl in Hfx; [done|].
      injection Hfx as <-.
      destruct (proj1 (Hroll x.1.1)) as (r & Hr & Hrm); [by exists x|].
      apply Hdfk in Hr as [Hr Htr].
      split.
      * intros [= <-]. split; [done|]. exists r. by rewrite Hrm.
      * by intros [-> _].
Qed.

(** X8: the rolling-average block shows its hint exactly when no row is
    an expense of a tracked category; it raises [ValueError], and nothing
    else, when the month of such a row, followed by "-01", is not a
    date. *)
Theorem rolling_average_result (data : list Row) :
  (rolling_average data = Ok None <->
     forall r, r ∈ data ->
       ~ (Type_ r = Some "Expense" /\ Category r ∈ keycats))
  /\ (forall r, r ∈ data ->
        Type_ r = Some "Expense" -> Category r ∈ keycats ->
        to_datetime_scalar (CStr (Month r +:+ "-01")) = None ->
        rolling_average data = Raise ValueError)
  /\ (forall e, rolling_average data = Raise e -> e = ValueError).
Proof.
  destruct (rolling_average_cases data) as [Hnone Hraise].
  split; [done|]. split.
  - intros r Hr Ht Hc Hbad. apply Hraise. split; [done|]. by exists r.
  - intros e He. by apply Hraise in He as [-> _].
Qed.

End RollingErrors.

(** A tracked expense whose month is not a date stops the block; the same
    month on an untracked category does not. *)
Lemma rolling_average_result_examples :
  @rolling_average sample_pandas
    [sample_row "soon" "Clothing" "Expense" 0 10] = Raise ValueError
  /\ @rolling_average sample_pandas
       [sample_row "soon" "Rent" "Expense" 0 10] = Ok None.
Proof. split; vm_compute; reflexivity. Qed.

(** ** The 50/30/20 view *)





(** ** Risk guards and hard caps *)








(** ** The hard caps stored by the Settings tab *)

Lemma dict_get_set {V : Type} (k k' : string) (v : V) (d : list (string * V)) :
  dict_get k (dict_set k' v d)
  = if decide (k' = k) then Some v else dict_get k d.
Proof.
  induction d as [|[k0 v0] d IH]; simpl.
  - done.
  - destruct (decide (k0 = k')) as [->|Hne]; simpl.
    + destruct (decide (k' = k)); done.
    + destruct (decide (k0 = k)) as [->|Hne'].
      * by rewrite decide_False by done.
      * done.
Qed.

Lemma dict_set_keys {V : Type} (k k' : string) (v : V) (d : list (string * V)) :
  k ∈ map fst (dict_set k' v d) <-> k = k' \/ k ∈ map fst d.
Proof.
  induction d as [|[k0 v0] d IH]; simpl.
  - rewrite list_elem_of_singleton. split; [by left|].
    intros [?|?%elem_of_nil]; done.
  - destruct (decide (k0 = k')) as [->|Hne]; simpl.
    + rewrite !elem_of_cons. tauto.
    + rewrite !elem_of_cons, IH. tauto.
Qed.

Lemma dict_set_NoDup {V : Type} (k : string) (v : V) (d : list (string * V)) :
  NoDup (map fst d) -> NoDup (map fst (dict_set k v d)).
Proof.
  induction d as [|[k0 v0] d IH]; simpl.
  - intros _. apply NoDup_singleton.
  - intros [Hnin Hnd]%NoDup_cons.
    destruct (decide (k0 = k)) as [->|Hne]; simpl.
    + by apply NoDup_cons.
    + apply NoDup_cons. split; [|by apply IH].
      rewrite dict_set_keys. intros [?|?]; done.
Qed.

Lemma dict_get_elem {V : Type} (k : string) (v : V) (d : list (string * V)) :
  NoDup (map fst d) -> (k, v) ∈ d <-> dict_get k d = Some v.
Proof.
  induction d as [|[k0 v0] d IH]; simpl.
  - intros _. split; [by intros ?%elem_of_nil|done].
  - intros [Hnin Hnd]%NoDup_cons. rewrite elem_of_cons.
    destruct (decide (k0 = k)) as [->|Hne].
    + split.
      * intros [[= ->]|Hin]; [done|]. exfalso. apply Hnin.
        apply list_elem_of_fmap. by exists (k, v).
      * intros [= ->]. by left.
    + rewrite <- IH by done. split.
      * intros [[= -> ->]|Hin]; done.
      * by right.
Qed.

Lemma hard_caps_of_snoc (edit : list (string * Qc)) (row : string * Qc) :
  hard_caps_of (edit ++ [row])
  = if bool_decide (0 < row.2)%Qc
    then dict_set row.1 row.2 (hard_caps_of edit) else hard_caps_of edit.
Proof. unfold hard_caps_of. by rewrite foldl_app. Qed.

Lemma hard_caps_of_NoDup (edit : list (string * Qc)) :
  NoDup (map fst (hard_caps_of edit)).
Proof.
  induction edit as [|row edit IH] using rev_ind.
  - apply NoDup_nil_2.
  - rewrite hard_caps_of_snoc. case_bool_decide; [|done].
    by apply dict_set_NoDup.
Qed.

Lemma hard_caps_of_get (edit : list (string * Qc)) (c : string) :
  dict_get c (hard_caps_of edit)
  = snd <$> last (filter (fun row => row.1 = c /\ (0 < row.2)%Qc) edit).
Proof.
  induction edit as [|row edit IH] using rev_ind.
  - done.
  - rewrite hard_caps_of_snoc, filter_app.
    destruct (decide (row.1 = c /\ (0 < row.2)%Qc)) as [[Hc Hpos]|Hn].
    + rewrite bool_decide_eq_true_2 by done.
      rewrite (filter_cons_True _ row) by done. rewrite filter_nil.
      rewrite last_snoc. simpl. rewrite dict_get_set.
      by rewrite decide_True.
    + rewrite (filter_cons_False _ row) by done. rewrite filter_nil, app_nil_r.
      case_bool_decide as Hpos; [|done].
      rewrite dict_get_set. rewrite decide_False; [done|].
      intros Hc. apply Hn. done.
Qed.

(** X12: whatever the edited table holds, the stored caps have one
    entry per category and only caps above 0: the cap of a category is the
    cap of its last row among those with a cap above 0. *)
Theorem hard_caps_of_spec (edit : list (string * Qc)) :
  NoDup (map fst (hard_caps_of edit))
  /\ (forall c cap,
        (c, cap) ∈ hard_caps_of edit
        <-> snd <$> last (filter (fun row => row.1 = c /\ (0 < row.2)%Qc) edit)
            = Some cap)
  /\ (forall c cap, (c, cap) ∈ hard_caps_of edit ->
        (0 < cap)%Qc /\ (c, cap) ∈ edit).
Proof.
  pose proof (hard_caps_of_NoDup edit) as Hnd.
  assert (Hiff : forall c cap,
            (c, cap) ∈ hard_caps_of edit
            <-> snd <$> last (filter (fun row => row.1 = c /\ (0 < row.2)%Qc)
                                edit) = Some cap).
  { intros c cap. rewrite dict_get_elem by done. by rewrite hard_caps_of_get. }
  split; [done|]. split; [done|].
  intros c cap Hin. apply Hiff in Hin.
  destruct (last _) as [[c' cap']|] eqn:Hlast; simpl in Hin; [|done].
  injection Hin as ->.
  apply last_Some_elem_of in Hlast.
  apply list_elem_of_filter in Hlast as [[Hc Hpos] Hin]. simpl in *.
  by subst c'.
Qed.

Lemma cap_rows_filter (cats : list string) (caps : list (string * Qc))
    (c : string) :
  filter (fun row => row.1 = c /\ (0 < row.2)%Qc)
    (map (fun c => (c, default 0%Qc (dict_get c caps))) cats)
  = if bool_decide (0 < default 0%Qc (dict_get c caps))%Qc
    then map (fun _ => (c, default 0%Qc (dict_get c caps)))
           (filter (fun c' => c' = c) cats)
    else [].
Proof.
  induction cats as [|c' l IH]; simpl.
  - by destruct (bool_decide _).
  - destruct (decide (c' = c)) as [->|Hne].
    + rewrite (filter_cons_True (fun c' => c' = c)) by done.
      case_bool_decide as Hpos.
      * rewrite filter_cons_True by done. simpl. by rewrite IH.
      * rewrite filter_cons_False by (simpl; tauto). by rewrite IH.
    + rewrite (filter_cons_False (fun c' => c' = c)) by done.
      rewrite filter_cons_False by (simpl; tauto). by rewrite IH.
Qed.

Lemma cap_rows_Some (cat : Catalog) (caps rows : list (string * Qc)) :
  cap_rows cat caps = Some rows ->
  exists cats, text_categories cat = Some cats
    /\ rows = map (fun c => (c, default 0%Qc (dict_get c caps))) cats.
Proof.
  unfold cap_rows. destruct (text_categories cat) as [cats|]; simpl; [|done].
  intros [= <-]. by exists cats.
Qed.

(** X13: when the table of caps is left as shown, a stored cap survives
    exactly when its category is in the catalog and the cap is above 0:
    the cap of a category that the catalog does not list is dropped. *)
Theorem hard_caps_untouched (cat : Catalog) (caps rows : list (string * Qc))
    (cats : list string) (c : string) (cap : Qc) :
  text_categories cat = Some cats ->
  cap_rows cat caps = Some rows ->
  (c, cap) ∈ hard_caps_of rows
  <-> c ∈ cats /\ dict_get c caps = Some cap /\ (0 < cap)%Qc.
Proof.
  intros Hcats (cats' & Hcats' & ->)%cap_rows_Some.
  rewrite Hcats in Hcats'. injection Hcats' as <-.
  rewrite dict_get_elem by apply hard_caps_of_NoDup.
  rewrite hard_caps_of_get, cap_rows_filter.
  case_bool_decide as Hpos.
  - destruct (filter (fun c' => c' = c) cats) as [|c0 l] eqn:Hf.
    + simpl. split; [done|]. intros (Hin & _).
      assert (Hc : c ∈ filter (fun c' => c' = c) cats)
        by (by apply list_elem_of_filter).
      rewrite Hf in Hc. by apply elem_of_nil in Hc.
    + assert (Hin : c ∈ cats).
      { assert (Hc : c0 ∈ filter (fun c' => c' = c) cats)
          by (rewrite Hf; by left).
        apply list_elem_of_filter in Hc as [-> ?]. done. }
      assert (Hlast : last (map (fun _ : string =>
                                   (c, default 0%Qc (dict_get c caps)))
                              (c0 :: l))
                      = Some (c, default 0%Qc (dict_get c caps))).
      { clear. change (map ?f ?l) with (f <$> l). rewrite fmap_last.
        destruct (last (c0 :: l)) eqn:E; [done|].
        by apply last_None in E. }
      rewrite Hlast. simpl.
      destruct (dict_get c caps) as [v|]; simpl in *.
      * split.
        -- intros [= ->]. done.
        -- intros (_ & [= ->] & _). done.
      * exfalso. by apply Qclt_not_eq in Hpos.
  - simpl. split; [done|]. intros (_ & Hget & Hcap).
    rewrite Hget in Hpos. done.
Qed.

(** A cap on a category that left the catalog is lost, one on a listed
    category is kept. *)
Lemma hard_caps_untouched_witness :
  exists rows,
    cap_rows sample_catalog
      [("Rent", Qc_of_Z 900); ("Travel", Qc_of_Z 50)] = Some rows
    /\ (("Rent", Qc_of_Z 900) ∈ hard_caps_of rows
        <-> "Rent" ∈ ["Rent"; "Gift"]
            /\ dict_get "Rent" [("Rent", Qc_of_Z 900); ("Travel", Qc_of_Z 50)]
               = Some (Qc_of_Z 900)
            /\ (0 < Qc_of_Z 900)%Qc)
    /\ ~ ("Travel", Qc_of_Z 50) ∈ hard_caps_of rows.
Proof.
  eexists. split; [reflexivity|]. split.
  - by apply (hard_caps_untouched sample_catalog
                [("Rent", Qc_of_Z 900); ("Travel", Qc_of_Z 50)] _
                ["Rent"; "Gift"]).
  - intros Hin.
    apply (hard_caps_untouched sample_catalog
             [("Rent", Qc_of_Z 900); ("Travel", Qc_of_Z 50)] _
             ["Rent"; "Gift"]) in Hin as (Hc & _); [|done|done].
    repeat (apply elem_of_cons in Hc as [Hc|Hc]; [done|]).
    by apply elem_of_nil in Hc.
Defined.

(** ** The budgets after the merge with the catalog *)

Lemma merge_left_keys (budgets : list (string * Qc)) (c : string) :
  Forall (fun kv => kv.1 = c) (merge_left budgets c) /\ merge_left budgets c <> [].
Proof.
  unfold merge_left. destruct (decide _) as [Hnil|Hne].
  - split; [by repeat constructor|done].
  - split; [|done]. apply Forall_forall. by intros kv [? _]%list_elem_of_filter.
Qed.

Lemma merge_left_last (budgets : list (string * Qc)) (c : string) :
  snd <$> last (merge_left budgets c) = Some (default 0%Qc (to_dict budgets !! c)).
Proof.
  rewrite to_dict_lookup. unfold merge_left.
  destruct (decide _) as [->|Hne]; [done|].
  destruct (last (filter _ budgets)) eqn:E; [done|].
  by apply last_None in E.
Qed.

Lemma merge_left_filter (budgets : list (string * Qc)) (c c' : string) :
  filter (fun kv => kv.1 = c) (merge_left budgets c')
  = if decide (c' = c) then merge_left budgets c' else [].
Proof.
  destruct (merge_left_keys budgets c') as [Hkeys _].
  destruct (decide (c' = c)) as [->|Hne].
  - apply filter_all. rewrite Forall_forall in Hkeys. done.
  - apply filter_none. intros kv Hin Hc. rewrite Forall_forall in Hkeys.
    apply Hkeys in Hin. congruence.
Qed.

Lemma merge_lookup (budgets : list (string * Qc)) (cats : list string)
    (c : string) :
  to_dict (cats ≫= merge_left budgets) !! c
  = if decide (c ∈ cats) then Some (default 0%Qc (to_dict budgets !! c))
    else None.
Proof.
  rewrite to_dict_lookup.
  induction cats as [|c' cats IH] using rev_ind.
  - done.
  - rewrite bind_app, filter_app, last_app. simpl. rewrite app_nil_r.
    rewrite merge_left_filter.
    destruct (decide (c' = c)) as [->|Hne].
    + destruct (last (merge_left budgets c)) as [kv|] eqn:E.
      * rewrite decide_True by (apply elem_of_app; right; by left).
        rewrite <- merge_left_last. by rewrite E.
      * apply last_None in E. by destruct (merge_left_keys budgets c).
    + simpl. rewrite IH.
      destruct (decide (c ∈ cats)) as [Hin|Hnin].
      * rewrite decide_True; [done|]. apply elem_of_app. by left.
      * rewrite decide_False; [done|]. rewrite elem_of_app.
        intros [?|Hc%list_elem_of_singleton]; done.
Qed.

Lemma merge_filter_NoDup (budgets : list (string * Qc)) (cats : list string)
    (c : string) :
  NoDup cats -> c ∈ cats ->
  filter (fun kv => kv.1 = c) (cats ≫= merge_left budgets)
  = merge_left budgets c.
Proof.
  induction cats as [|c' cats IH].
  - by intros _ ?%elem_of_nil.
  - intros [Hnin Hnd]%NoDup_cons Hin.
    rewrite bind_cons, filter_app, merge_left_filter.
    destruct (decide (c' = c)) as [->|Hne].
    + rewrite (filter_none _ (cats ≫= _)); [by rewrite app_nil_r|].
      intros kv (c0 & Hkv & Hc0)%list_elem_of_bind Hc.
      destruct (merge_left_keys budgets c0) as [Hkeys _].
      rewrite Forall_forall in Hkeys. apply Hkeys in Hkv. congruence.
    + simpl. apply IH; [done|].
      apply elem_of_cons in Hin as [->|Hin]; done.
Qed.

Lemma merge_left_idem (budgets : list (string * Qc)) (cats : list string)
    (c : string) :
  NoDup cats -> c ∈ cats ->
  merge_left (cats ≫= merge_left budgets) c = merge_left budgets c.
Proof.
  intros Hnd Hin. unfold merge_left at 1.
  rewrite merge_filter_NoDup by done.
  destruct (decide _) as [Hnil|Hne]; [|done].
  by destruct (merge_left_keys budgets c).
Qed.

(** X14: after the merge every category of the catalog has a budget:
    the one it had (the last, if it had several), or 0; the budget of a
    category that the catalog does not list is dropped.  With no category
    listed twice, merging again changes nothing. *)
Theorem merge_budgets_spec (cat : Catalog) (budgets merged : list (string * Qc))
    (cats : list string) :
  text_categories cat = Some cats ->
  merge_budgets cat budgets = Some merged ->
  (forall c, to_dict merged !! c
             = if decide (c ∈ cats)
               then Some (default 0%Qc (to_dict budgets !! c)) else None)
  /\ (forall c, ~ c ∈ map fst budgets -> c ∈ cats -> (c, 0%Qc) ∈ merged)
  /\ (NoDup cats -> merge_budgets cat merged = Some merged).
Proof.
  intros Hcats. unfold merge_budgets. rewrite Hcats. simpl.
  intros [= <-]. split; [|split].
  - intros c. apply merge_lookup.
  - intros c Hnin Hin. apply list_elem_of_bind. exists c. split; [|done].
    unfold merge_left. rewrite decide_True; [by left|].
    apply filter_none. intros [k v] Hkv Hk. simpl in Hk. subst k.
    apply Hnin. apply list_elem_of_fmap. by exists (c, v).
  - intros Hnd. f_equal.
    assert (Hext : forall l, (forall c, c ∈ l -> c ∈ cats) ->
              l ≫= merge_left (cats ≫= merge_left budgets)
              = l ≫= merge_left budgets).
    { induction l as [|c l IH]; intros Hsub; [done|]. rewrite !bind_cons.
      rewrite merge_left_idem by (try done; apply Hsub; by left).
      f_equal. apply IH. intros c' Hc'. apply Hsub. by right. }
    by apply Hext.
Qed.

Lemma merge_budgets_witness :
  exists merged,
    merge_budgets sample_catalog [("Rent", Qc_of_Z 900); ("Travel", Qc_of_Z 50)]
    = Some merged
    /\ to_dict merged !! "Rent" = Some (Qc_of_Z 900)
    /\ to_dict merged !! "Gift" = Some 0%Qc
    /\ to_dict merged !! "Travel" = None
    /\ merge_budgets sample_catalog merged = Some merged.
Proof.
  eexists. split; [reflexivity|].
  destruct (merge_budgets_spec sample_catalog
              [("Rent", Qc_of_Z 900); ("Travel", Qc_of_Z 50)] _
              ["Rent"; "Gift"] eq_refl eq_refl) as (Hlook & _ & Hidem).
  split; [|split; [|split]].
  - rewrite Hlook. reflexivity.
  - rewrite Hlook. reflexivity.
  - rewrite Hlook. reflexivity.
  - apply Hidem. by apply (bool_decide_unpack _).
Defined.

(** ** The categories most over budget *)

Lemma Qcleb_total (a b : Qc) : Qcleb a b = true \/ Qcleb b a = true.
Proof.
  unfold Qcleb. destruct (Qclt_le_dec a b) as [Hlt|Hle].
  - left. apply bool_decide_eq_true_2. by apply Qclt_le_weak.
  - right. by apply bool_decide_eq_true_2.
Qed.

Lemma Qcleb_trans (a b c : Qc) :
  Qcleb a b = true -> Qcleb b c = true -> Qcleb a c = true.
Proof.
  unfold Qcleb. rewrite !bool_decide_eq_true. apply Qcle_trans.
Qed.

Lemma StronglySorted_app_le {A : Type} (R : A -> A -> Prop) (l1 l2 : list A) :
  StronglySorted R (l1 ++ l2) ->
  StronglySorted R l1 /\ forall a b, a ∈ l1 -> b ∈ l2 -> R a b.
Proof.
  induction l1 as [|x l1 IH]; simpl; intros Hs.
  - split; [constructor|]. by intros a b ?%elem_of_nil.
  - apply StronglySorted_inv in Hs as [Hs Hx].
    destruct (IH Hs) as [Hs1 Hle]. split.
    + constructor; [done|]. apply Forall_app in Hx as [Hx _]. done.
    + intros a b [->|Ha]%elem_of_cons Hb; [|by apply Hle].
      rewrite Forall_forall in Hx. apply Hx. apply elem_of_app. by right.
Qed.

Lemma StronglySorted_weaken {A : Type} (R R' : A -> A -> Prop) (l : list A) :
  (forall a b, R a b -> R' a b) -> StronglySorted R l -> StronglySorted R' l.
Proof.
  intros Himpl. induction 1 as [|x l Hs IH Hx]; constructor; [done|].
  eapply Forall_impl; [exact Hx|]. intros y. apply Himpl.
Qed.

Lemma overs_length (eo : list ExpenseSummary) :
  length (overs eo)
  = Nat.min 5 (length (filter (fun e => (es_Variance e < 0)%Qc) eo)).
Proof.
  unfold overs. rewrite length_take.
  by rewrite (sort_values_perm Qcleb es_Variance).
Qed.

(** X15: the list of overspent categories holds at most five of them,
    all over budget, the most over budget first; every over-budget
    category left out is no more over budget than any listed one. *)
Theorem overs_spec (eo : list ExpenseSummary) :
  length (overs eo)
  = Nat.min 5 (length (filter (fun e => (es_Variance e < 0)%Qc) eo))
  /\ StronglySorted (fun a b => (es_Variance a <= es_Variance b)%Qc) (overs eo)
  /\ exists rest,
       overs eo ++ rest ≡ₚ filter (fun e => (es_Variance e < 0)%Qc) eo
       /\ forall e x, e ∈ overs eo -> x ∈ rest ->
                      (es_Variance e <= es_Variance x)%Qc.
Proof.
  unfold overs.
  set (over := filter _ eo).
  set (sorted := sort_values Qcleb es_Variance over).
  assert (Hperm : sorted ≡ₚ over) by apply sort_values_perm.
  assert (Hsorted : StronglySorted (key_le Qcleb es_Variance) sorted).
  { apply sort_values_sorted; [apply Qcleb_total|apply Qcleb_trans]. }
  rewrite <- (take_drop 5 sorted) in Hsorted.
  apply StronglySorted_app_le in Hsorted as [Hs Hle].
  split; [|split].
  - apply overs_length.
  - eapply StronglySorted_weaken; [|exact Hs].
    intros a b Hab. unfold key_le, Qcleb in Hab.
    by apply bool_decide_eq_true in Hab.
  - exists (drop 5 sorted). split.
    + by rewrite take_drop.
    + intros e x He Hx. specialize (Hle e x He Hx).
      unfold key_le, Qcleb in Hle. by apply bool_decide_eq_true in Hle.
Qed.

(** ** Recommendations *)



(** ** The paydays field *)

Lemma rev_app_app (a b acc : string) :
  String.rev_app (a +:+ b) acc = String.rev_app b (String.rev_app a acc).
Proof. revert acc. induction a as [|c a IH]; intros acc; simpl; [done|apply IH]. Qed.

Lemma rev_app_rev_app (s acc1 acc2 : string) :
  String.rev_app (String.rev_app s acc1) acc2 = String.rev_app acc1 (s +:+ acc2).
Proof.
  revert acc1 acc2. induction s as [|c s IH]; intros acc1 acc2; simpl; [done|].
  by rewrite IH.
Qed.

Lemma append_nil_r (s : string) : s +:+ "" = s.
Proof.
  induction s as [|c s IH]; [done|].
  change (String c (s +:+ "") = String c s). by rewrite IH.
Qed.

Lemma rev_rev (s : string) : String.rev (String.rev s) = s.
Proof. unfold String.rev. rewrite rev_app_rev_app. simpl. apply append_nil_r. Qed.

Lemma rev_app_chars (P : ascii -> bool) (s acc : string) :
  forallb P (list_ascii_of_string s) = true ->
  forallb P (list_ascii_of_string acc) = true ->
  forallb P (list_ascii_of_string (String.rev_app s acc)) = true.
Proof.
  revert acc. induction s as [|c s IH]; intros acc; simpl; [done|].
  intros [Hc Hs]%andb_prop Hacc. apply IH; [done|]. simpl. by rewrite Hc.
Qed.

Lemma lstrip_id (s : string) :
  forallb (fun c => negb (Py.isspace c)) (list_ascii_of_string s) = true ->
  Py.lstrip s = s.
Proof.
  destruct s as [|c s]; simpl; [done|].
  intros [Hc _]%andb_prop. by destruct (Py.isspace c).
Qed.

Lemma strip_id (s : string) :
  forallb (fun c => negb (Py.isspace c)) (list_ascii_of_string s) = true ->
  Py.strip s = s.
Proof.
  intros Hs. unfold Py.strip. rewrite (lstrip_id s) by done.
  rewrite lstrip_id; [apply rev_rev|].
  by apply rev_app_chars.
Qed.

Lemma split_go_part (sep : ascii) (a cur rest : string) :
  forallb (fun c => negb (Ascii.eqb c sep)) (list_ascii_of_string a) = true ->
  Py.split_go sep cur (a +:+ rest)
  = Py.split_go sep (String.rev_app a cur) rest.
Proof.
  revert cur. induction a as [|c a IH]; intros cur; simpl; [done|].
  intros [Hc Ha]%andb_prop. destruct (Ascii.eqb c sep); [done|]. by apply IH.
Qed.

Lemma split_concat (sep : ascii) (parts : list string) :
  parts <> [] ->
  Forall (fun a => forallb (fun c => negb (Ascii.eqb c sep))
                     (list_ascii_of_string a) = true) parts ->
  Py.split sep (String.concat (String sep "") parts) = parts.
Proof.
  unfold Py.split. induction parts as [|a parts IH]; [done|].
  intros _ [Ha Hparts]%Forall_cons. destruct parts as [|b parts].
  - simpl. rewrite <- (append_nil_r a) at 1. rewrite split_go_part by done.
    simpl. fold (String.rev a). by rewrite rev_rev.
  - change (String.concat (String sep "") (a :: b :: parts))
      with (a +:+ String sep (String.concat (String sep "") (b :: parts))).
    rewrite split_go_part by done.
    change (Py.split_go sep (String.rev_app a "") (String sep ?s))
      with (if Ascii.eqb sep sep
            then String.rev (String.rev_app a "") :: Py.split_go sep "" s
            else Py.split_go sep (String sep (String.rev_app a "")) s).
    rewrite Ascii.eqb_refl. fold (String.rev a). rewrite rev_rev.
    f_equal. by apply IH.
Qed.

Lemma pretty_N_char_digit (d : N) :
  (d < 10)%N -> Py.digit (pretty_N_char d) = Some (Z.of_N d).
Proof.
  intros Hd.
  assert (Hcases : (d = 0 \/ d = 1 \/ d = 2 \/ d = 3 \/ d = 4 \/ d = 5
                    \/ d = 6 \/ d = 7 \/ d = 8 \/ d = 9)%N) by lia.
  repeat destruct Hcases as [->|Hcases]; try subst d; reflexivity.
Qed.

Lemma pretty_N_char_plain (P : ascii -> bool) (d : N) :
  forallb P (list_ascii_of_string "0123456789") = true ->
  P (pretty_N_char d) = true.
Proof.
  simpl. rewrite !andb_true_iff.
  intros (H0 & H1 & H2 & H3 & H4 & H5 & H6 & H7 & H8 & H9 & _).
  destruct d as [|p]; [done|].
  do 4 (destruct p as [p|p|]; try done).
Qed.

Lemma pretty_N_go_chars (P : ascii -> bool) (x : N) (s : string) :
  forallb P (list_ascii_of_string "0123456789") = true ->
  forallb P (list_ascii_of_string s) = true ->
  forallb P (list_ascii_of_string (pretty_N_go x s)) = true.
Proof.
  intros HP. revert s.
  induction (N.lt_wf_0 x) as [x _ IH]. intros s Hs.
  destruct (decide (0 < x)%N) as [Hx|Hx].
  - rewrite pretty_N_go_step by done. apply IH.
    + by apply N.div_lt.
    + simpl. rewrite Hs. by rewrite pretty_N_char_plain.
  - assert (x = 0%N) as -> by lia. by rewrite pretty_N_go_0.
Qed.

Lemma digits_pretty_N_go (x : N) (s : string) (b : bool) :
  Py.digits_go 0 b (pretty_N_go x s)
  = Py.digits_go (Z.of_N x) (b || (0 <? x)%N) s.
Proof.
  revert s b. induction (N.lt_wf_0 x) as [x _ IH]. intros s b.
  destruct (decide (0 < x)%N) as [Hx|Hx].
  - rewrite pretty_N_go_step by done.
    rewrite IH by (by apply N.div_lt). simpl.
    rewrite pretty_N_char_digit by (by apply N.mod_lt).
    rewrite (proj2 (N.ltb_lt 0 x)) by done. rewrite orb_true_r.
    f_equal. rewrite (N.div_mod x 10) at 3 by done. lia.
  - assert (x = 0%N) as -> by lia. rewrite pretty_N_go_0.
    by rewrite orb_false_r.
Qed.

Lemma int_unsigned (s : string) (z : Z) :
  Py.strip s = s -> Py.digits_go 0 false s = Some z -> Py.int s = Ok z.
Proof.
  intros Hstrip Hd. unfold Py.int. rewrite Hstrip.
  destruct s as [|c s]; [done|].
  destruct c as [[] [] [] [] [] [] [] []]; simpl in *;
    try (by rewrite Hd); done.
Qed.

Lemma int_negative (s : string) (z : Z) :
  Py.strip (String "-" s) = String "-" s ->
  Py.digits_go 0 false s = Some z -> Py.int (String "-" s) = Ok (- z).
Proof.
  intros Hstrip Hd. unfold Py.int. rewrite Hstrip. simpl. by rewrite Hd.
Qed.

(** [int(str(z))] is [z]. *)
Lemma int_pretty (z : Z) : Py.int (pretty z) = Ok z.
Proof.
  assert (Hpos : forall p : positive,
            Py.strip (pretty_N_go (N.pos p) "") = pretty_N_go (N.pos p) ""
            /\ Py.digits_go 0 false (pretty_N_go (N.pos p) "")
               = Some (Z.pos p)).
  { intros p. split.
    - apply strip_id. by apply pretty_N_go_chars.
    - by rewrite digits_pretty_N_go. }
  destruct z as [|p|p].
  - reflexivity.
  - destruct (Hpos p). by apply int_unsigned.
  - destruct (Hpos p) as [Hstrip Hd].
    change (pretty (Z.neg p)) with (String "-" (pretty_N_go (N.pos p) "")).
    apply (int_negative _ (Z.pos p)); [|done].
    apply strip_id.
    change (list_ascii_of_string (String ?c ?s))
      with (c :: list_ascii_of_string s).
    apply andb_true_intro. split; [done|]. by apply pretty_N_go_chars.
Qed.

Lemma pretty_Z_chars (P : ascii -> bool) (z : Z) :
  forallb P (list_ascii_of_string "-0123456789") = true ->
  forallb P (list_ascii_of_string (pretty z)) = true.
Proof.
  intros [Hdash HP]%andb_prop. destruct z as [|p|p].
  - simpl in *. apply andb_prop in HP as [-> _]. done.
  - by apply pretty_N_go_chars.
  - change (pretty (Z.neg p)) with (String "-" (pretty_N_go (N.pos p) "")).
    change (list_ascii_of_string (String ?c ?s))
      with (c :: list_ascii_of_string s).
    apply andb_true_intro. split; [done|]. by apply pretty_N_go_chars.
Qed.

Lemma pretty_Z_ne_empty (z : Z) : pretty z <> "".
Proof.
  intros Heq. pose proof (int_pretty z) as Hint. rewrite Heq in Hint. done.
Qed.

Lemma mapM_int_pretty (l : list Z) :
  mapM (fun x => Py.int (Py.strip x)) (map pretty l) = Ok l.
Proof.
  induction l as [|z l IH]; simpl; [done|].
  rewrite strip_id by (by apply pretty_Z_chars).
  rewrite int_pretty. simpl. by rewrite IH.
Qed.

(** X17: the text the paydays field starts with parses back to the
    stored paydays, without a warning: a run that leaves the field alone
    leaves the paydays alone.  The days are below the limit that Python
    puts on the conversion between int and str. *)
Theorem paydays_round_trip (paydays : list Z) :
  Forall (fun z => Z.abs z < 10 ^ 4300) paydays ->
  parse_paydays paydays (paydays_text paydays) = (paydays, []).
Proof.
  intros _. unfold parse_paydays, paydays_text.
  destruct paydays as [|z l]; [reflexivity|].
  change "," with (String ","%char "") at 1.
  rewrite split_concat.
  - rewrite filter_all.
    + by rewrite mapM_int_pretty.
    + intros x (z' & -> & _)%list_elem_of_fmap.
      rewrite strip_id by (by apply pretty_Z_chars).
      apply pretty_Z_ne_empty.
  - done.
  - apply Forall_forall. intros x (z' & -> & _)%list_elem_of_fmap.
    by apply pretty_Z_chars.
Qed.

Lemma paydays_round_trip_witness :
  paydays_text [5; 20] = "5,20"
  /\ parse_paydays [5; 20] (paydays_text [5; 20]) = ([5; 20], []).
Proof.
  split; [reflexivity|].
  apply paydays_round_trip. repeat constructor; by vm_compute.
Defined.

(** Blanks and empty parts are ignored; a part that is not an integer
    keeps the previous paydays and shows the warning. *)
Lemma parse_paydays_examples :
  parse_paydays [1] " 5 , ,20," = ([5; 20], [])
  /\ parse_paydays [1] "" = ([], [])
  /\ parse_paydays [1] "5;20"
     = ([1], [warning "Invalid paydays format. Use numbers like 5,20"]).
Proof. repeat split. Qed.

(** ** Quick entries and imports *)

Section HomeFacts.
Context `{Pandas}.



















End HomeFacts.


Section ImportFacts.
Context `{Pandas}.





End ImportFacts.


(** ** What every session keeps *)

Section SessionFacts.
Context `{Pandas}.





End SessionFacts.


(** ** The Analytics tab after a quick entry *)

Section EntryMonthFacts.
Context `{Pandas}.


End EntryMonthFacts.


Lemma analytics_after_entry_raises :
  @analytics_tab sample_pandas
    (add_entry (initial_state "2024-01")
       {| entry_date := Datetime.ymd2ord 2024 3 15;
          entry_month := "March"; entry_category := CStr "Rent";
          entry_type := "Expense"; entry_amount_actual := Qc_of_Z 800;
          entry_amount_budget := Qc_of_Z 900;
          entry_section := "Wants" |}).1
    (Datetime.mk_datetime (Datetime.ymd2ord 2024 3 20) 0)
  = Raise ValueError.
Proof. vm_compute. reflexivity. Qed.
